(** * multiPCA9685: a driver for arrays of PCA9685 PWM controllers

    A shallow embedding of [src/multiPCA9685.cpp]: the single-chip driver
    [PCA9685] (reset, prescale programming, PWM register encoding) and the
    aggregator [MultiPCA9685] (flat motor index to driver and channel).

    Integers of the C++ source are [Z] with the wrap-around of each
    conversion written out, [double] is IEEE binary64 ([PrimFloat]), the
    I2C transport is the log of the [writeRegister] calls made through each
    handle, [std::cout] is a list of lines, and undefined behaviour is an
    explicit outcome of every computation. *)

From Stdlib Require Import ZArith QArith Qround Lia List Bool.
From Stdlib Require Import Floats.
From stdpp Require Import base list.
Import ListNotations.

Local Open Scope Z_scope.

(** ** C++ values and undefined behaviour *)

Module Cpp.

(** The ways in which the modelled code can leave defined behaviour. *)
Inductive ub : Set :=
| DivisionByZero          (* [expr.mul]: second operand of / is zero *)
| ConversionOutOfRange    (* [conv.fpint]: truncated value not representable *)
| IndexOutOfRange.        (* std::vector::operator[] past the end *)

Inductive cresult (A : Type) : Type :=
| Ok (a : A)
| Undefined (u : ub).
Arguments Ok {A} a.
Arguments Undefined {A} u.

Definition rbind {A B} (r : cresult A) (k : A -> cresult B) : cresult B :=
  match r with
  | Ok a => k a
  | Undefined u => Undefined u
  end.

(** Methods: state passing over the object (or the program) they act on. *)
Definition M (S A : Type) : Type := S -> cresult (A * S).

Definition ret {S A} (a : A) : M S A := fun s => Ok (a, s).

Definition bind {S A B} (m : M S A) (k : A -> M S B) : M S B :=
  fun s => match m s with
           | Ok (a, s') => k a s'
           | Undefined u => Undefined u
           end.

Definition lift {S A} (r : cresult A) : M S A :=
  fun s => rbind r (fun a => Ok (a, s)).

Definition modify {S} (f : S -> S) : M S unit := fun s => Ok (tt, f s).

(** Unsigned conversions: reduction modulo 2^n. *)
Definition wrap (bits : Z) (z : Z) : Z := z mod 2 ^ bits.
Definition u8 : Z -> Z := wrap 8.

Definition is_uint8 (z : Z) : Prop := 0 <= z < 256.
Definition is_uint16 (z : Z) : Prop := 0 <= z < 65536.

(** [int] is 32 bits on the targets of this library. *)
Definition is_int (z : Z) : Prop := - 2 ^ 31 <= z < 2 ^ 31.

(** [int] to [double]: exact below 2^53; used on non-negative values only. *)
Definition double_of_int (z : Z) : float := PrimFloat.of_uint63 (Uint63.of_Z z).

(** The integral part of a finite double, rounding toward zero. *)
Definition trunc (x : float) : option Z :=
  match Prim2SF x with
  | S754_zero _ => Some 0
  | S754_finite s m e =>
      let a := Z.shiftl (Zpos m) e in
      Some (if s then - a else a)
  | S754_infinity _ | S754_nan => None
  end.

(** [static_cast<uint8_t>(x)] on a double: the fractional part is
    discarded, and the behaviour is undefined when the truncated value
    is not a [uint8_t]. *)
Definition static_cast_uint8 (x : float) : cresult Z :=
  match trunc x with
  | Some z => if (0 <=? z) && (z <=? 255) then Ok z
              else Undefined ConversionOutOfRange
  | None => Undefined ConversionOutOfRange
  end.

(** [x / y] on doubles; a zero divisor is undefined. *)
Definition double_div (x y : float) : cresult float :=
  if PrimFloat.eqb y 0%float then Undefined DivisionByZero
  else Ok (x / y)%float.

End Cpp.

Export Cpp.

Declare Scope cpp_scope.
Delimit Scope cpp_scope with cpp.
Notation "x <- m ;; k" := (bind m (fun x => k))
  (at level 100, m at next level, right associativity) : cpp_scope.
Notation "m ;; k" := (bind m (fun _ => k))
  (at level 100, right associativity) : cpp_scope.

Local Open Scope cpp_scope.

(** ** Declarations of multiPCA9685.h

    The development covers multiPCA9685.cpp. Of the header it includes,
    the register addresses and the width of the [numDrivers] member are
    parameters of the development; the three constants below are fixed
    by the specification. *)

Class Header : Set := {
  MODE1 : Z;            (* address of the mode register *)
  PRE_SCALE : Z;        (* address of the prescale register *)
  SERVO0 : Z;           (* address of the first channel's ON_L register *)
  numDrivers_bits : Z   (* width of the unsigned member numDrivers *)
}.

(** Modelled from the spec: the macro MULTIPLIER of multiPCA9685.h, the
    per-channel register stride, "4 bytes: ON_L, ON_H, OFF_L, OFF_H". *)
Definition MULTIPLIER : Z := 4.

(** Modelled from the spec: the constant outputsPerDriver of
    multiPCA9685.h, "16 = fixed channels-per-chip constant". *)
Definition outputsPerDriver : Z := 16.

(** Modelled from the spec: the macro CLOCK_FREQ of multiPCA9685.h, the
    chip's internal clock rate 25,000,000, a floating constant: the
    quotient [CLOCK_FREQ / (4096 * freq)] is the real-valued one that the
    0.5 added before the cast rounds. *)
Definition CLOCK_FREQ : float := 25000000%float.

(** ** The transport: I2CDevice

    An external collaborator. A handle is bound to one (bus, address) and
    is observed through the register writes made with it, in order. The
    register argument is recorded as the caller's expression evaluates. *)

Inductive transfer : Set :=
| WriteByte (reg value : Z)                      (* writeRegister(reg, value) *)
| WriteBlock (reg : Z) (data : list Z) (len : Z). (* writeRegister(reg, data, len) *)

Record I2CDevice : Set := {
  bus : Z;
  deviceAddress : Z;
  written : list transfer
}.

Definition log (t : transfer) (d : I2CDevice) : I2CDevice :=
  {| bus := bus d; deviceAddress := deviceAddress d;
     written := written d ++ [t] |}.

(** ** PCA9685: one chip *)

Module PCA9685.

Record t : Set := { i2c : I2CDevice }.

Definition writeRegister (reg value : Z) : M t unit :=
  modify (fun self => {| i2c := log (WriteByte reg value) (i2c self) |}).

Definition writeRegisters (reg : Z) (data : list Z) (len : Z) : M t unit :=
  modify (fun self => {| i2c := log (WriteBlock reg data len) (i2c self) |}).

(** The initialiser of [prescale_val] in [setFreq]:
    [static_cast<uint8_t>((CLOCK_FREQ / (4096 * freq)) - 1 + 0.5)].
    [freq] is promoted to [int] for the product, which is converted to
    [double] for the division. *)
Definition divisor (freq : Z) : Z := 4096 * freq.

Definition prescale_val (freq : Z) : cresult Z :=
  rbind (double_div CLOCK_FREQ (double_of_int (divisor freq)))
        (fun q => static_cast_uint8 (q - 1 + 0.5)%float).

Section Methods.
Context {h : Header}.

Definition reset : M t unit :=
  writeRegister MODE1 0x20.

Definition setFreq (freq : Z) : M t unit :=
  p <- lift (prescale_val freq);;
  writeRegister MODE1 0x10;;
  writeRegister PRE_SCALE p;;
  writeRegister MODE1 0xA0.

(** The array [data] of [setPWM]. *)
Definition data (on_value off_value : Z) : list Z :=
  [ u8 (Z.land on_value 0xFF);
    u8 (Z.shiftr on_value 8);
    u8 (Z.land off_value 0xFF);
    u8 (Z.shiftr off_value 8) ].

Definition setPWM (servo on_value off_value : Z) : M t unit :=
  writeRegisters (SERVO0 + MULTIPLIER * servo) (data on_value off_value) 4.

Definition setPWM2 (servo value : Z) : M t unit :=
  setPWM servo 0 value.

(** The constructor: a fresh handle, then [reset] and [setFreq]. *)
Definition new (bus deviceAddress freq : Z) : cresult t :=
  let self := {| i2c := {| bus := bus; deviceAddress := deviceAddress;
                           written := [] |} |} in
  rbind ((reset;; setFreq freq) self) (fun r => Ok (snd r)).

End Methods.

End PCA9685.

(** ** MultiPCA9685: the aggregator *)

Module MultiPCA9685.

Record t : Set := {
  busAddressPairs : list (Z * Z);
  pwmDrivers : list PCA9685.t;
  numDrivers : Z;
  DevFrequency : Z
}.

(** What the methods send to [std::cout], one constructor per line
    (the fields are the values streamed into the line). *)
Inductive line : Set :=
| SettingPWM (on off motorIndex driverIndex channel address bus : Z)
| ConfigurationBanner
| NumberOfDrivers (n : Z)
| DeviceFrequency (f : Z)
| DriverLine (position bus address : Z)
| BlankLine
| DebugOutputOn
| DebugOutputOff.

(** The running program: the aggregator, the debug flag and the console. *)
Record program : Set := {
  self : t;
  PCA9685_DEBUG : bool;
  cout : list line
}.

Definition print (l : line) : M program unit :=
  modify (fun p => {| self := self p; PCA9685_DEBUG := PCA9685_DEBUG p;
                      cout := cout p ++ [l] |}).

Definition this : M program t := fun p => Ok (self p, p).

Definition debug : M program bool := fun p => Ok (PCA9685_DEBUG p, p).

(** [v[i]] on a vector: undefined past the end. *)
Definition at_ {A} (v : list A) (i : Z) : cresult A :=
  match v !! Z.to_nat i with
  | Some a => Ok a
  | None => Undefined IndexOutOfRange
  end.

(** A method call through the reference [pwmDrivers[i]]. *)
Definition on_driver (i : Z) (m : M PCA9685.t unit) : M program unit :=
  fun p =>
    rbind (at_ (pwmDrivers (self p)) i) (fun driver =>
    rbind (m driver) (fun r =>
      Ok (tt, {| self := {| busAddressPairs := busAddressPairs (self p);
                            pwmDrivers := <[Z.to_nat i := snd r]> (pwmDrivers (self p));
                            numDrivers := numDrivers (self p);
                            DevFrequency := DevFrequency (self p) |};
                 PCA9685_DEBUG := PCA9685_DEBUG p;
                 cout := cout p |}))).

(** [uint8_t driverIndex = motorIndex / outputsPerDriver] and
    [uint8_t channel = motorIndex % outputsPerDriver]: the division and
    the remainder of [int], truncating, then the conversion back. *)
Definition driverIndex_of (motorIndex : Z) : Z :=
  u8 (Z.quot motorIndex outputsPerDriver).

Definition channel_of (motorIndex : Z) : Z :=
  u8 (Z.rem motorIndex outputsPerDriver).

(** The lines of the loop of [getSetup], from position [i]. *)
Fixpoint driver_lines (i : Z) (pairs : list (Z * Z)) : list line :=
  match pairs with
  | [] => []
  | bus_address :: rest =>
      DriverLine (i + 1) (fst bus_address) (snd bus_address)
        :: driver_lines (i + 1) rest
  end.

Fixpoint print_all (ls : list line) : M program unit :=
  match ls with
  | [] => ret tt
  | l :: rest => print l;; print_all rest
  end.

Section Methods.
Context {h : Header}.

(** The loop of the constructor: one [emplace_back(bus, address,
    frequency)] per pair, the [int] bus converted to the [uint8_t]
    parameter of [PCA9685]. *)
Fixpoint emplace_all (pairs : list (Z * Z)) (frequency : Z)
         (drivers : list PCA9685.t) : cresult (list PCA9685.t) :=
  match pairs with
  | [] => Ok drivers
  | bus_address :: rest =>
      let bus := fst bus_address in
      let address := snd bus_address in
      rbind (PCA9685.new (u8 bus) address frequency)
            (fun d => emplace_all rest frequency (drivers ++ [d]))
  end.

Definition new (bus_address_pairs : list (Z * Z)) (frequency : Z)
  : cresult t :=
  rbind (emplace_all bus_address_pairs frequency []) (fun drivers =>
    Ok {| busAddressPairs := bus_address_pairs;
          pwmDrivers := drivers;
          numDrivers := wrap numDrivers_bits
                             (Z.of_nat (length bus_address_pairs));
          DevFrequency := frequency |}).

(** The references [driver] and [bus_address] are taken before the
    debug line is printed; the call goes through the reference. *)
Definition setPWM (motorIndex on off : Z) : M program unit :=
  let driverIndex := driverIndex_of motorIndex in
  let channel := channel_of motorIndex in
  o <- this;;
  if driverIndex <? numDrivers o then
    (_ <- lift (at_ (pwmDrivers o) driverIndex);;
     bus_address <- lift (at_ (busAddressPairs o) driverIndex);;
     dbg <- debug;;
     (if dbg
      then print (SettingPWM on off motorIndex driverIndex channel
                             (snd bus_address) (fst bus_address))
      else ret tt);;
     on_driver driverIndex (PCA9685.setPWM channel on off))
  else ret tt.

Definition setPWM2 (motorIndex val : Z) : M program unit :=
  setPWM motorIndex 0 val.

Definition getSetup : M program unit :=
  o <- this;;
  print ConfigurationBanner;;
  print (NumberOfDrivers (numDrivers o));;
  print (DeviceFrequency (DevFrequency o));;
  print BlankLine;;
  print_all (driver_lines 0 (busAddressPairs o));;
  print BlankLine.

Definition toggleDebug : M program unit :=
  modify (fun p => {| self := self p;
                      PCA9685_DEBUG := negb (PCA9685_DEBUG p);
                      cout := cout p |});;
  dbg <- debug;;
  if dbg then print DebugOutputOn else print DebugOutputOff.

(** The public interface after construction, and sequences of calls. *)
Inductive call : Set :=
| SetPWM (motorIndex on off : Z)
| SetPWM2 (motorIndex val : Z)
| GetSetup
| ToggleDebug.

Definition perform (c : call) : M program unit :=
  match c with
  | SetPWM motorIndex on off => setPWM motorIndex on off
  | SetPWM2 motorIndex val => setPWM2 motorIndex val
  | GetSetup => getSetup
  | ToggleDebug => toggleDebug
  end.

Fixpoint run (cs : list call) : M program unit :=
  match cs with
  | [] => ret tt
  | c :: rest => perform c;; run rest
  end.

End Methods.

(** The program right after construction of the aggregator. *)
Definition start (o : t) (dbg : bool) : program :=
  {| self := o; PCA9685_DEBUG := dbg; cout := [] |}.

End MultiPCA9685.

(** ** The specification's prescale formula *)

(** Round-half-up on a non-negative rational: the floor of [q + 1/2]. *)
Definition round_half_up (q : Q) : Z := Qfloor (Qplus q (Qmake 1 2)).

(** [round(clock / (4096 * frequencyHz)) - 1]. *)
Definition computePrescale (clock frequencyHz : Z) : Z :=
  round_half_up (Qdiv (inject_Z clock) (inject_Z (4096 * frequencyHz))) - 1.

(** The frequencies the chip supports with its internal clock. *)
Definition chip_range (frequencyHz : Z) : Prop := 24 <= frequencyHz <= 1526.

(** ** Notions used in the statements *)

Import MultiPCA9685.

(** A property of every [uint8_t], checked value by value. *)
Definition uint8_all (P : Z -> bool) : bool :=
  forallb P (map Z.of_nat (seq 0 256)).

(** The three register writes of [setFreq], given the prescale byte. *)
Definition setFreq_writes {h : Header} (p : Z) : list transfer :=
  [WriteByte MODE1 0x10; WriteByte PRE_SCALE p; WriteByte MODE1 0xA0].

(** The prescale computation on every frequency of the chip's range that
    the parameter type can hold, checked value by value. *)
Definition prescale_matches (freq : Z) : bool :=
  if (24 <=? freq) && (freq <=? 1526) then
    match PCA9685.prescale_val freq with
    | Ok p => p =? computePrescale 25000000 freq
    | Undefined _ => false
    end
  else true.

(** The division of [prescale_val] on every non-zero [uint8_t]. *)
Definition division_defined (freq : Z) : bool :=
  if 1 <=? freq then
    match double_div CLOCK_FREQ (double_of_int (PCA9685.divisor freq)) with
    | Ok _ => true
    | Undefined _ => false
    end
  else true.

(** Where the prescale computation is defined, on a [uint8_t]: from
    24 Hz on; below, the quotient is beyond [uint8_t], and at 0 the
    divisor is zero. *)
Definition prescale_domain (freq : Z) : bool :=
  match PCA9685.prescale_val freq with
  | Ok _ => 24 <=? freq
  | Undefined DivisionByZero => freq =? 0
  | Undefined _ => (1 <=? freq) && (freq <=? 23)
  end.

(** What the constructor establishes about the two vectors and the
    count, and every method keeps. *)
Definition consistent (o : MultiPCA9685.t) : Prop :=
  length (pwmDrivers o) = length (busAddressPairs o) /\
  numDrivers o <= Z.of_nat (length (pwmDrivers o)).

(** The (bus, address) a driver's handle is bound to. *)
Definition handle (d : PCA9685.t) : Z * Z :=
  (bus (PCA9685.i2c d), deviceAddress (PCA9685.i2c d)).

(** The handle the constructor opens for a configured pair: the bus
    number passes through the [uint8_t] parameter of [PCA9685]. *)
Definition handle_of_pair (bus_address : Z * Z) : Z * Z :=
  (u8 (fst bus_address), snd bus_address).

(** The program after a forwarded [setPWM]. *)
Definition forwarded (p : program) (motorIndex on off : Z)
           (bus_address : Z * Z) (driver' : PCA9685.t) : program :=
  {| self :=
       {| busAddressPairs := busAddressPairs (self p);
          pwmDrivers :=
            <[Z.to_nat (driverIndex_of motorIndex) := driver']>
              (pwmDrivers (self p));
          numDrivers := numDrivers (self p);
          DevFrequency := DevFrequency (self p) |};
     PCA9685_DEBUG := PCA9685_DEBUG p;
     cout := cout p ++
             (if PCA9685_DEBUG p
              then [SettingPWM on off motorIndex (driverIndex_of motorIndex)
                      (channel_of motorIndex)
                      (snd bus_address) (fst bus_address)]
              else []) |}.

(** What no method changes: the configured pairs, the handles of the
    drivers in order, the driver count and the frequency. *)
Definition configuration (o : MultiPCA9685.t)
  : list (Z * Z) * list (Z * Z) * Z * Z :=
  (busAddressPairs o, handle <$> pwmDrivers o, numDrivers o, DevFrequency o).

(** The calls a client can write: the motor index is a [uint8_t]. *)
Definition uint8_call (c : call) : Prop :=
  match c with
  | SetPWM motorIndex _ _ | SetPWM2 motorIndex _ => is_uint8 motorIndex
  | GetSetup | ToggleDebug => True
  end.

(** ** Concrete headers, chips and aggregators *)

(** The register map of the PCA9685 data sheet, with an 8-bit driver
    count: the concrete header used in the examples. *)
Definition datasheet : Header :=
  {| MODE1 := 0x00; PRE_SCALE := 0xFE; SERVO0 := 0x06; numDrivers_bits := 8 |}.

(** A chip object right after its handle is opened, for the examples. *)
Definition fresh_chip : PCA9685.t :=
  {| PCA9685.i2c := {| bus := 1; deviceAddress := 0x40; written := [] |} |}.

(** The transfers a chip has received once constructed at 50 Hz. *)
Definition constructed_at_50 (b a : Z) : PCA9685.t :=
  {| PCA9685.i2c :=
       {| bus := b; deviceAddress := a;
          written := [WriteByte 0x00 0x20; WriteByte 0x00 0x10;
                      WriteByte 0xFE 121; WriteByte 0x00 0xA0] |} |}.

(** Two chips, on bus 1 at 0x40 and on bus 3 at 0x41, at 50 Hz. *)
Definition two_pairs : list (Z * Z) := [(1, 0x40); (3, 0x41)].

Definition two_chips : MultiPCA9685.t :=
  {| busAddressPairs := two_pairs;
     pwmDrivers := [constructed_at_50 1 0x40; constructed_at_50 3 0x41];
     numDrivers := 2;
     DevFrequency := 50 |}.

(** Seventeen chips on bus 1, at 0x40 .. 0x50. *)
Definition seventeen_pairs : list (Z * Z) :=
  map (fun i => (1, 0x40 + Z.of_nat i)) (seq 0 17).

Definition seventeen_chips : MultiPCA9685.t :=
  {| busAddressPairs := seventeen_pairs;
     pwmDrivers := map (fun ba => constructed_at_50 (fst ba) (snd ba))
                       seventeen_pairs;
     numDrivers := 17;
     DevFrequency := 50 |}.

(** ** Notions used in the further properties *)

(** The chip object the constructor of [PCA9685] returns, given the
    prescale byte: the handle and the four register writes it received. *)
Definition initialised {h : Header} (p b a : Z) : PCA9685.t :=
  {| PCA9685.i2c :=
       {| bus := b; deviceAddress := a;
          written := WriteByte MODE1 0x20 :: setFreq_writes p |} |}.

(** How the chip reads the four registers of a channel back: two
    little-endian 16-bit counts. *)
Definition decode (bytes : list Z) : option (Z * Z) :=
  match bytes with
  | [on_l; on_h; off_l; off_h] => Some (on_l + 256 * on_h, off_l + 256 * off_h)
  | _ => None
  end.

(** The register block [setPWM] addresses for a channel. *)
Definition block_of {h : Header} (servo : Z) : Z := SERVO0 + MULTIPLIER * servo.

(** A transfer that programs one of the sixteen channels: a block of four
    bytes at the registers of that channel. *)
Definition channel_block {h : Header} (t : transfer) : Prop :=
  exists channel bytes,
    t = WriteBlock (block_of channel) bytes 4 /\
    0 <= channel <= 15 /\
    length bytes = 4%nat /\ Forall is_uint8 bytes.

(** The block [setPWM] sends for a flat index. *)
Definition block_for {h : Header} (motorIndex on off : Z) : transfer :=
  WriteBlock (block_of (channel_of motorIndex)) (PCA9685.data on off) 4.

(** [p'] continues [p]: the same drivers on the same handles, each
    transport having received further channel blocks and nothing else,
    and the console only longer. *)
Definition continues {h : Header} (p p' : program) : Prop :=
  length (pwmDrivers (self p')) = length (pwmDrivers (self p)) /\
  (forall k d,
     pwmDrivers (self p) !! k = Some d ->
     exists d' blocks,
       pwmDrivers (self p') !! k = Some d' /\
       handle d' = handle d /\
       written (PCA9685.i2c d') = written (PCA9685.i2c d) ++ blocks /\
       Forall channel_block blocks) /\
  (exists ls, cout p' = cout p ++ ls).

(** The line [toggleDebug] prints for the new state of the flag. *)
Definition debug_line (dbg : bool) : line :=
  if dbg then DebugOutputOn else DebugOutputOff.

(** Prescale bytes of two frequencies: both defined, ordered against the
    frequencies, and within 23..253. *)
Definition prescale_ordered (f1 f2 : Z) : bool :=
  if (24 <=? f1) && (f1 <=? f2) then
    match PCA9685.prescale_val f1, PCA9685.prescale_val f2 with
    | Ok p1, Ok p2 => (p2 <=? p1) && (23 <=? p2) && (p1 <=? 253)
    | _, _ => false
    end
  else true.

(** ** The example program, examples/multi_example.cpp *)

Definition SERVOMIN : Z := 110.
Definition SERVOMAX : Z := 550.

Definition pcaBusAddressPairs : list (Z * Z) :=
  [(1, 0x40); (3, 0x41); (1, 0x42); (1, 0x48); (4, 0x55); (4, 0x80)].

(** The calls of [main], in order (the pauses between them left out). *)
Definition main_calls : list call :=
  [GetSetup;
   SetPWM2 17 SERVOMIN;
   ToggleDebug;
   SetPWM2 17 SERVOMAX;
   SetPWM2 21 SERVOMIN;
   SetPWM2 21 SERVOMAX;
   ToggleDebug;
   SetPWM2 95 SERVOMIN;
   SetPWM2 95 SERVOMAX].

(** Modelled from the spec: the default frequency of the constructor of
    [MultiPCA9685], declared in multiPCA9685.h, "default 50 Hz". The
    global [manyPCA9685s] is constructed, then [main] runs; [dbg] is the
    initial value of the debug flag. *)
Definition main {h : Header} (dbg : bool) : cresult program :=
  rbind (new pcaBusAddressPairs 50) (fun manyPCA9685s =>
  rbind (run main_calls (start manyPCA9685s dbg)) (fun r => Ok (snd r))).

(** A chip constructed at 50 Hz (prescale byte 121) that has then
    received the given transfers. *)
Definition at_50_then {h : Header} (b a : Z) (blocks : list transfer)
  : PCA9685.t :=
  {| PCA9685.i2c :=
       {| bus := b; deviceAddress := a;
          written := WriteByte MODE1 0x20 :: setFreq_writes 121 ++ blocks |} |}.

(** * Properties *)

(** ** Every [uint8_t] *)

Lemma uint8_all_spec (P : Z -> bool) :
  uint8_all P = true -> forall z, is_uint8 z -> P z = true.
Proof.
  unfold uint8_all, is_uint8. intros Hall z Hz.
  rewrite forallb_forall in Hall. apply Hall.
  apply in_map_iff. exists (Z.to_nat z). split; [lia|].
  apply in_seq. lia.
Qed.

(** ** The single chip: frequency programming *)

Section SetFreq.
Context {h : Header}.

Lemma written_log t d : written (log t d) = written d ++ [t].
Proof. reflexivity. Qed.

Lemma setFreq_run freq chip :
  PCA9685.setFreq freq chip =
  rbind (PCA9685.prescale_val freq) (fun p =>
    Ok (tt, {| PCA9685.i2c :=
                 log (WriteByte MODE1 0xA0)
                   (log (WriteByte PRE_SCALE p)
                      (log (WriteByte MODE1 0x10) (PCA9685.i2c chip))) |})).
Proof.
  unfold PCA9685.setFreq, bind, lift, rbind.
  destruct (PCA9685.prescale_val freq); reflexivity.
Qed.

Lemma setFreq_defined freq chip p :
  PCA9685.prescale_val freq = Ok p ->
  exists chip',
    PCA9685.setFreq freq chip = Ok (tt, chip') /\
    written (PCA9685.i2c chip') =
      written (PCA9685.i2c chip) ++ setFreq_writes p /\
    bus (PCA9685.i2c chip') = bus (PCA9685.i2c chip) /\
    deviceAddress (PCA9685.i2c chip') = deviceAddress (PCA9685.i2c chip).
Proof.
  intros Hp. rewrite setFreq_run, Hp. cbn [rbind].
  eexists. split; [reflexivity|]. cbn.
  rewrite <- !app_assoc. auto.
Qed.

End SetFreq.

(** The clock constant is the integer 25,000,000 of the formula, exactly. *)
Lemma CLOCK_FREQ_exact : CLOCK_FREQ = double_of_int 25000000.
Proof. reflexivity. Qed.

Lemma prescale_matches_all : uint8_all prescale_matches = true.
Proof. vm_compute. reflexivity. Qed.

Lemma prescale_val_in_range freq :
  is_uint8 freq -> chip_range freq ->
  PCA9685.prescale_val freq = Ok (computePrescale 25000000 freq).
Proof.
  intros H8 [Hlo Hhi].
  pose proof (uint8_all_spec _ prescale_matches_all freq H8) as Hm.
  unfold prescale_matches in Hm.
  replace (24 <=? freq) with true in Hm by (symmetry; apply Z.leb_le; lia).
  replace (freq <=? 1526) with true in Hm by (symmetry; apply Z.leb_le; lia).
  cbn [andb] in Hm.
  destruct (PCA9685.prescale_val freq) as [p|u]; [|discriminate].
  apply Z.eqb_eq in Hm. now subst.
Qed.

Lemma prescale_domain_all : uint8_all prescale_domain = true.
Proof. vm_compute. reflexivity. Qed.

(** On a [uint8_t], [setFreq] has defined behaviour from 24 Hz on. *)
Lemma prescale_val_defined_iff freq :
  is_uint8 freq ->
  ((exists p, PCA9685.prescale_val freq = Ok p) <-> 24 <= freq).
Proof.
  intros H8.
  pose proof (uint8_all_spec _ prescale_domain_all freq H8) as Hd.
  unfold prescale_domain in Hd.
  destruct (PCA9685.prescale_val freq) as [p|[]].
  - apply Z.leb_le in Hd. split; [intros _; exact Hd|eauto].
  - apply Z.eqb_eq in Hd. split; [intros [p Hp]; discriminate|lia].
  - apply andb_true_iff in Hd as [_ Hd]. apply Z.leb_le in Hd.
    split; [intros [p Hp]; discriminate|lia].
  - apply andb_true_iff in Hd as [_ Hd]. apply Z.leb_le in Hd.
    split; [intros [p Hp]; discriminate|lia].
Qed.

(** C1: for every frequency of the chip's valid range, the prescale byte
    that [setFreq] computes and writes to PRE_SCALE is
    [round(clock / (4096 * freq)) - 1], rounding half up, for the clock
    25,000,000; at 50 Hz it is 121. *)
Theorem setFreq_prescale_round_half_up {h : Header} :
  forall freq chip,
    is_uint8 freq -> chip_range freq ->
    PCA9685.prescale_val freq = Ok (computePrescale 25000000 freq) /\
    (exists chip',
       PCA9685.setFreq freq chip = Ok (tt, chip') /\
       written (PCA9685.i2c chip') =
         written (PCA9685.i2c chip)
           ++ [WriteByte MODE1 0x10;
               WriteByte PRE_SCALE (computePrescale 25000000 freq);
               WriteByte MODE1 0xA0]) /\
    computePrescale 25000000 50 = 121.
Proof.
  intros freq chip H8 Hr.
  pose proof (prescale_val_in_range freq H8 Hr) as Hp.
  split; [exact Hp|]. split; [|reflexivity].
  destruct (setFreq_defined freq chip _ Hp) as (chip' & Hrun & Hw & _).
  exists chip'. split; [exact Hrun|exact Hw].
Qed.

Lemma setFreq_prescale_round_half_up_50 :
  (is_uint8 50 /\ chip_range 50) /\
  PCA9685.prescale_val 50 = Ok 121.
Proof.
  assert (H8 : is_uint8 50) by (unfold is_uint8; lia).
  assert (Hr : chip_range 50) by (unfold chip_range; lia).
  split; [split; assumption|].
  exact (proj1 (setFreq_prescale_round_half_up (h := datasheet)
                  50 fresh_chip H8 Hr)).
Defined.

Lemma division_defined_all : uint8_all division_defined = true.
Proof. vm_compute. reflexivity. Qed.

Lemma divisor_is_int freq : is_uint8 freq -> is_int (PCA9685.divisor freq).
Proof. unfold is_uint8, is_int, PCA9685.divisor. lia. Qed.

Lemma prescale_val_division freq q :
  double_div CLOCK_FREQ (double_of_int (PCA9685.divisor freq)) = Ok q ->
  PCA9685.prescale_val freq <> Undefined DivisionByZero.
Proof.
  intros Hq. unfold PCA9685.prescale_val. rewrite Hq. cbn [rbind].
  unfold static_cast_uint8.
  destruct (trunc _) as [z|]; [|discriminate].
  destruct (_ && _); discriminate.
Qed.

(** C10: with [freq >= 1] the divisor [4096 * freq] of the prescale
    computation is not zero (and fits an [int]), the division is defined
    and the computation never ends in a division by zero; with
    [freq = 0], which the 8-bit parameter can hold, it divides by zero. *)
Theorem setFreq_divides_by_zero_only_at_0 :
  forall freq,
    is_uint8 freq ->
    (1 <= freq ->
       PCA9685.divisor freq <> 0 /\
       is_int (PCA9685.divisor freq) /\
       (exists q, double_div CLOCK_FREQ
                    (double_of_int (PCA9685.divisor freq)) = Ok q) /\
       PCA9685.prescale_val freq <> Undefined DivisionByZero) /\
    (is_uint8 0 /\
     PCA9685.divisor 0 = 0 /\
     PCA9685.prescale_val 0 = Undefined DivisionByZero).
Proof.
  intros freq H8. split.
  - intros H1.
    assert (Hq : exists q, double_div CLOCK_FREQ
                   (double_of_int (PCA9685.divisor freq)) = Ok q).
    { pose proof (uint8_all_spec _ division_defined_all freq H8) as Hd.
      unfold division_defined in Hd.
      replace (1 <=? freq) with true in Hd by (symmetry; apply Z.leb_le; lia).
      destruct (double_div _ _) as [q|u]; [eauto|discriminate]. }
    split; [unfold PCA9685.divisor; lia|].
    split; [apply divisor_is_int, H8|].
    split; [exact Hq|].
    destruct Hq as [q Hq]. eapply prescale_val_division, Hq.
  - split; [unfold is_uint8; lia|]. split; reflexivity.
Qed.

Lemma setFreq_divides_by_zero_only_at_0_at_50 :
  is_uint8 50 /\
  PCA9685.prescale_val 50 <> Undefined DivisionByZero.
Proof.
  assert (H8 : is_uint8 50) by (unfold is_uint8; lia).
  split; [exact H8|].
  refine (proj2 (proj2 (proj2
    (proj1 (setFreq_divides_by_zero_only_at_0 50 H8) _)))).
  lia.
Defined.




(** ** The single chip: PWM register encoding *)

Lemma low_byte x : 0 <= x -> u8 (Z.land x 0xFF) = x mod 256.
Proof.
  intros Hx. unfold u8, wrap.
  change 0xFF with (Z.ones 8). rewrite Z.land_ones by lia.
  change (2 ^ 8) with 256. apply Z.mod_mod. lia.
Qed.

Lemma high_byte x : is_uint16 x -> u8 (Z.shiftr x 8) = x / 256.
Proof.
  unfold is_uint16, u8, wrap. intros Hx.
  rewrite Z.shiftr_div_pow2 by lia. change (2 ^ 8) with 256.
  apply Z.mod_small. split.
  - apply Z.div_pos; lia.
  - apply Z.div_lt_upper_bound; lia.
Qed.

(** The high byte tells a value of 4096 or more from its low 12 bits. *)
Lemma high_byte_masked x : x / 256 = (x mod 4096) / 256 -> x < 4096.
Proof.
  intros Heq. destruct (Z_lt_ge_dec x 4096) as [Hlt|Hge]; [exact Hlt|].
  exfalso.
  assert (16 <= x / 256) by (apply Z.div_le_lower_bound; lia).
  assert ((x mod 4096) / 256 < 16).
  { apply Z.div_lt_upper_bound; [lia|].
    pose proof (Z.mod_pos_bound x 4096). lia. }
  lia.
Qed.

Section SetPWM.
Context {h : Header}.

Lemma data_bytes on_value off_value :
  is_uint16 on_value -> is_uint16 off_value ->
  PCA9685.data on_value off_value =
    [on_value mod 256; on_value / 256; off_value mod 256; off_value / 256].
Proof.
  intros Hon Hoff. unfold PCA9685.data.
  rewrite !low_byte, !high_byte by (unfold is_uint16 in *; tauto || lia).
  reflexivity.
Qed.

Lemma setPWM_run servo on_value off_value chip :
  PCA9685.setPWM servo on_value off_value chip =
    Ok (tt, {| PCA9685.i2c :=
                 log (WriteBlock (SERVO0 + MULTIPLIER * servo)
                                 (PCA9685.data on_value off_value) 4)
                     (PCA9685.i2c chip) |}).
Proof. reflexivity. Qed.

(** Two calls on the same object agree exactly when their blocks do. *)
Lemma setPWM_same_iff servo on1 off1 on2 off2 chip :
  PCA9685.setPWM servo on1 off1 chip = PCA9685.setPWM servo on2 off2 chip
  <-> PCA9685.data on1 off1 = PCA9685.data on2 off2.
Proof.
  rewrite !setPWM_run. split.
  - intros Heq. injection Heq as Heq.
    apply app_inv_head in Heq. congruence.
  - intros ->. reflexivity.
Qed.

Lemma data_masked_iff on_value off_value :
  is_uint16 on_value -> is_uint16 off_value ->
  (PCA9685.data on_value off_value =
     PCA9685.data (on_value mod 4096) (off_value mod 4096)
   <-> on_value < 4096 /\ off_value < 4096).
Proof.
  intros Hon Hoff.
  assert (Hon' : is_uint16 (on_value mod 4096))
    by (unfold is_uint16; pose proof (Z.mod_pos_bound on_value 4096); lia).
  assert (Hoff' : is_uint16 (off_value mod 4096))
    by (unfold is_uint16; pose proof (Z.mod_pos_bound off_value 4096); lia).
  rewrite !data_bytes by assumption.
  unfold is_uint16 in *. split.
  - intros Heq. injection Heq as _ Hhi_on _ Hhi_off.
    split; apply high_byte_masked; assumption.
  - intros [H1 H2].
    rewrite (Z.mod_small on_value 4096), (Z.mod_small off_value 4096) by lia.
    reflexivity.
Qed.

End SetPWM.

(** C3, as the code has it: the block written by [setPWM] is the
    little-endian split of all 16 bits of [on] and [off]; bits 12-15 are
    neither rejected nor masked, they go out in the upper half of the
    high bytes. So [setPWM(ch, on, off)] writes the same bytes as
    [setPWM(ch, on mod 4096, off mod 4096)] exactly when [on] and [off]
    are both below 4096. *)
Theorem setPWM_writes_all_16_bits {h : Header} :
  forall servo on_value off_value chip,
    is_uint16 on_value -> is_uint16 off_value ->
    PCA9685.setPWM servo on_value off_value chip =
      Ok (tt, {| PCA9685.i2c :=
                   log (WriteBlock (SERVO0 + MULTIPLIER * servo)
                          [on_value mod 256; on_value / 256;
                           off_value mod 256; off_value / 256] 4)
                       (PCA9685.i2c chip) |}) /\
    (PCA9685.setPWM servo on_value off_value chip =
       PCA9685.setPWM servo (on_value mod 4096) (off_value mod 4096) chip
     <-> on_value < 4096 /\ off_value < 4096).
Proof.
  intros servo on_value off_value chip Hon Hoff. split.
  - rewrite setPWM_run, data_bytes by assumption. reflexivity.
  - rewrite setPWM_same_iff. apply data_masked_iff; assumption.
Qed.

Lemma setPWM_writes_all_16_bits_0x1155 :
  (is_uint16 0x1155 /\ is_uint16 0x0FAB) /\
  PCA9685.setPWM (h := datasheet) 2 0x1155 0x0FAB fresh_chip =
    Ok (tt, {| PCA9685.i2c :=
                 {| bus := 1; deviceAddress := 0x40;
                    written := [WriteBlock 14 [0x55; 0x11; 0xAB; 0x0F] 4] |} |}).
Proof.
  assert (Hon : is_uint16 0x1155) by (unfold is_uint16; lia).
  assert (Hoff : is_uint16 0x0FAB) by (unfold is_uint16; lia).
  split; [split; assumption|].
  exact (proj1 (setPWM_writes_all_16_bits (h := datasheet)
                  2 0x1155 0x0FAB fresh_chip Hon Hoff)).
Defined.

(** C3, as stated, fails: with [on = 0x1000] the ON_H byte written is
    0x10, while [on mod 4096 = 0] gives 0x00. *)
Lemma setPWM_mask_12_bits_fails :
  is_uint8 0 /\ is_uint16 0x1000 /\ is_uint16 0 /\
  PCA9685.data 0x1000 0 = [0; 0x10; 0; 0] /\
  PCA9685.data (0x1000 mod 4096) (0 mod 4096) = [0; 0; 0; 0] /\
  PCA9685.setPWM (h := datasheet) 0 0x1000 0 fresh_chip <>
    PCA9685.setPWM (h := datasheet) 0 (0x1000 mod 4096) (0 mod 4096) fresh_chip.
Proof.
  unfold is_uint8, is_uint16.
  repeat split; try lia; try reflexivity.
  vm_compute. discriminate.
Qed.

(** C5: for every channel and 12-bit [on]/[off], [setPWM] makes exactly
    one transport write: the contiguous block [on low, on high, off low,
    off high], of length 4, at register [SERVO0 + 4 * ch]; for
    [on = 0x0155], [off = 0x0FAB] the bytes are 0x55, 0x01, 0xAB, 0x0F. *)
Theorem setPWM_one_block_write {h : Header} :
  forall ch on_value off_value chip,
    is_uint8 ch -> 0 <= on_value < 4096 -> 0 <= off_value < 4096 ->
    (exists chip',
       PCA9685.setPWM ch on_value off_value chip = Ok (tt, chip') /\
       written (PCA9685.i2c chip') =
         written (PCA9685.i2c chip)
           ++ [WriteBlock (SERVO0 + 4 * ch)
                 [on_value mod 256; on_value / 256;
                  off_value mod 256; off_value / 256] 4] /\
       length (written (PCA9685.i2c chip')) =
         S (length (written (PCA9685.i2c chip)))) /\
    PCA9685.data 0x0155 0x0FAB = [0x55; 0x01; 0xAB; 0x0F].
Proof.
  intros ch on_value off_value chip _ Hon Hoff.
  split; [|reflexivity].
  rewrite setPWM_run, data_bytes by (unfold is_uint16; lia).
  eexists. split; [reflexivity|]. cbn [PCA9685.i2c].
  rewrite written_log. split; [reflexivity|].
  rewrite length_app. cbn. lia.
Qed.

Lemma setPWM_one_block_write_ch3 :
  (is_uint8 3 /\ 0 <= 0x0155 < 4096 /\ 0 <= 0x0FAB < 4096) /\
  exists chip',
    PCA9685.setPWM (h := datasheet) 3 0x0155 0x0FAB fresh_chip = Ok (tt, chip') /\
    written (PCA9685.i2c chip') = [WriteBlock 18 [0x55; 0x01; 0xAB; 0x0F] 4].
Proof.
  assert (Hch : is_uint8 3) by (unfold is_uint8; lia).
  assert (Hon : 0 <= 0x0155 < 4096) by lia.
  assert (Hoff : 0 <= 0x0FAB < 4096) by lia.
  split; [auto|].
  destruct (proj1 (setPWM_one_block_write (h := datasheet)
                     3 0x0155 0x0FAB fresh_chip Hch Hon Hoff))
    as (chip' & Hrun & Hw & _).
  exists chip'. split; [exact Hrun|exact Hw].
Defined.

(** C7: the two-argument overloads are the three-argument forms with
    on-time 0: [PCA9685::setPWM(servo, value)] on every chip object, and
    [MultiPCA9685::setPWM(motorIndex, val)] on every program state. *)
Theorem setPWM_two_argument_overloads {h : Header} :
  (forall servo value chip,
     PCA9685.setPWM2 servo value chip = PCA9685.setPWM servo 0 value chip) /\
  (forall motorIndex val p,
     MultiPCA9685.setPWM2 motorIndex val p =
       MultiPCA9685.setPWM motorIndex 0 val p).
Proof. split; reflexivity. Qed.

(** ** The aggregator: resolving a flat motor index *)

Lemma driverIndex_of_uint8 motorIndex :
  is_uint8 motorIndex ->
  driverIndex_of motorIndex = motorIndex / 16 /\
  0 <= motorIndex / 16 <= 15.
Proof.
  unfold is_uint8, driverIndex_of, outputsPerDriver, u8, wrap. intros Hm.
  rewrite Z.quot_div_nonneg by lia.
  assert (0 <= motorIndex / 16 <= 15).
  { split; [apply Z.div_pos; lia|].
    apply Z.lt_succ_r, Z.div_lt_upper_bound; lia. }
  split; [apply Z.mod_small; change (2 ^ 8) with 256; lia|assumption].
Qed.

Lemma channel_of_uint8 motorIndex :
  is_uint8 motorIndex ->
  channel_of motorIndex = motorIndex mod 16 /\
  0 <= motorIndex mod 16 <= 15.
Proof.
  unfold is_uint8, channel_of, outputsPerDriver, u8, wrap. intros Hm.
  rewrite Z.rem_mod_nonneg by lia.
  pose proof (Z.mod_pos_bound motorIndex 16).
  split; [apply Z.mod_small; change (2 ^ 8) with 256; lia|lia].
Qed.

Lemma driverIndex_of_nonneg motorIndex : 0 <= driverIndex_of motorIndex < 256.
Proof. unfold driverIndex_of, u8, wrap. apply Z.mod_pos_bound. reflexivity. Qed.

Section Aggregator.
Context {h : Header}.

Lemma setPWM_skip motorIndex on off p :
  numDrivers (self p) <= driverIndex_of motorIndex ->
  setPWM motorIndex on off p = Ok (tt, p).
Proof.
  intros Hge. unfold setPWM, bind, this.
  destruct (Z.ltb_spec (driverIndex_of motorIndex) (numDrivers (self p)));
    [lia|reflexivity].
Qed.

Lemma consistent_lookup o i :
  consistent o -> 0 <= i < numDrivers o ->
  exists driver bus_address,
    pwmDrivers o !! Z.to_nat i = Some driver /\
    busAddressPairs o !! Z.to_nat i = Some bus_address.
Proof.
  intros [Hlen Hnum] Hi.
  destruct (lookup_lt_is_Some_2 (pwmDrivers o) (Z.to_nat i)) as [d Hd];
    [lia|].
  destruct (lookup_lt_is_Some_2 (busAddressPairs o) (Z.to_nat i)) as [ba Hba];
    [lia|].
  eauto.
Qed.

Lemma setPWM_forward motorIndex on off p driver bus_address :
  driverIndex_of motorIndex < numDrivers (self p) ->
  pwmDrivers (self p) !! Z.to_nat (driverIndex_of motorIndex) = Some driver ->
  busAddressPairs (self p) !! Z.to_nat (driverIndex_of motorIndex)
    = Some bus_address ->
  exists driver',
    PCA9685.setPWM (channel_of motorIndex) on off driver = Ok (tt, driver') /\
    setPWM motorIndex on off p =
      Ok (tt, forwarded p motorIndex on off bus_address driver').
Proof.
  intros Hlt Hd Hba. eexists. split; [apply setPWM_run|].
  destruct p as [o dbg out]. cbn [self] in *.
  unfold setPWM, bind, this. cbn [self].
  destruct (Z.ltb_spec (driverIndex_of motorIndex) (numDrivers o)); [|lia].
  unfold lift, debug, on_driver, at_, forwarded, rbind. cbn [self].
  rewrite Hd, Hba. cbn [PCA9685_DEBUG cout snd].
  destruct dbg; cbn.
  - rewrite Hd. reflexivity.
  - rewrite Hd, app_nil_r. reflexivity.
Qed.

End Aggregator.

(** C2: for every flat motor index passed to [setPWM] the driver index is
    [flatIndex / 16] and the channel is [flatIndex mod 16], without
    wrap-around; when that driver is configured the command goes to its
    [setPWM] with that channel, and to no other driver; index 17 resolves
    to driver 1, channel 1. *)
Theorem setPWM_resolves_div_mod_16 {h : Header} :
  forall motorIndex on off p,
    is_uint8 motorIndex -> consistent (self p) ->
    driverIndex_of motorIndex = motorIndex / 16 /\
    channel_of motorIndex = motorIndex mod 16 /\
    (motorIndex / 16 < numDrivers (self p) ->
     exists driver bus_address driver',
       pwmDrivers (self p) !! Z.to_nat (motorIndex / 16) = Some driver /\
       busAddressPairs (self p) !! Z.to_nat (motorIndex / 16)
         = Some bus_address /\
       PCA9685.setPWM (motorIndex mod 16) on off driver = Ok (tt, driver') /\
       setPWM motorIndex on off p =
         Ok (tt, forwarded p motorIndex on off bus_address driver') /\
       pwmDrivers (self (forwarded p motorIndex on off bus_address driver'))
         = <[Z.to_nat (motorIndex / 16) := driver']> (pwmDrivers (self p))) /\
    (driverIndex_of 17 = 1 /\ channel_of 17 = 1).
Proof.
  intros motorIndex on off p Hm Hc.
  destruct (driverIndex_of_uint8 motorIndex Hm) as [Hd Hdr].
  destruct (channel_of_uint8 motorIndex Hm) as [Hch _].
  split; [exact Hd|]. split; [exact Hch|]. split; [|split; reflexivity].
  intros Hlt.
  destruct (consistent_lookup (self p) (motorIndex / 16) Hc)
    as (driver & bus_address & Hdrv & Hba); [lia|].
  destruct (setPWM_forward motorIndex on off p driver bus_address)
    as (driver' & Hone & Hrun); rewrite ?Hd; try assumption.
  exists driver, bus_address, driver'.
  rewrite Hch in Hone. cbn [forwarded self pwmDrivers]. rewrite Hd.
  repeat split; assumption || reflexivity.
Qed.

(** C4: when the resolved driver index is [>= numDrivers], [setPWM]
    returns normally and leaves the whole program as it was: no transport
    write on any driver, nothing on the console, the debug flag and the
    configuration untouched. *)
Theorem setPWM_out_of_range_is_silent {h : Header} :
  forall motorIndex on off p,
    is_uint8 motorIndex ->
    numDrivers (self p) <= motorIndex / 16 ->
    setPWM motorIndex on off p = Ok (tt, p) /\
    setPWM2 motorIndex off p = Ok (tt, p).
Proof.
  intros motorIndex on off p Hm Hge.
  destruct (driverIndex_of_uint8 motorIndex Hm) as [Hd _].
  split; [|unfold setPWM2]; apply setPWM_skip; rewrite Hd; exact Hge.
Qed.

(** ** The aggregator: construction and lifetime *)

Lemma wrap_le bits n : 0 <= n -> wrap bits n <= n.
Proof.
  intros Hn. unfold wrap.
  destruct (Z.eq_dec (2 ^ bits) 0) as [H0|Hne].
  - rewrite H0, Z.mod_0_r. lia.
  - apply Z.mod_le; [exact Hn|].
    pose proof (Z.pow_nonneg 2 bits). lia.
Qed.

Lemma configuration_consistent o o' :
  configuration o' = configuration o -> consistent o -> consistent o'.
Proof.
  unfold configuration, consistent. intros Heq [Hlen Hnum].
  injection Heq as Hp Hh Hn _.
  apply (f_equal length) in Hh. rewrite !length_fmap in Hh.
  rewrite Hp, Hn, Hh. auto.
Qed.

Lemma print_all_run ls p :
  print_all ls p =
    Ok (tt, {| self := self p; PCA9685_DEBUG := PCA9685_DEBUG p;
               cout := cout p ++ ls |}).
Proof.
  revert p. induction ls as [|l ls IH]; intros p; cbn [print_all].
  - unfold ret. rewrite app_nil_r. now destruct p.
  - unfold bind, print, modify. rewrite IH. cbn.
    rewrite <- app_assoc. reflexivity.
Qed.

Section Lifetime.
Context {h : Header}.

Lemma PCA9685_new_run b a freq :
  PCA9685.new b a freq =
    rbind (PCA9685.prescale_val freq) (fun p =>
      Ok {| PCA9685.i2c :=
              {| bus := b; deviceAddress := a;
                 written := WriteByte MODE1 0x20 :: setFreq_writes p |} |}).
Proof.
  unfold PCA9685.new, bind, PCA9685.reset, PCA9685.writeRegister, modify.
  rewrite setFreq_run. destruct (PCA9685.prescale_val freq); reflexivity.
Qed.

Lemma PCA9685_new_handle b a freq d :
  PCA9685.new b a freq = Ok d -> handle d = (b, a).
Proof.
  rewrite PCA9685_new_run.
  destruct (PCA9685.prescale_val freq); cbn; [|discriminate].
  intros [= <-]. reflexivity.
Qed.

Lemma emplace_all_handles pairs frequency :
  forall drivers ds,
    emplace_all pairs frequency drivers = Ok ds ->
    handle <$> ds = (handle <$> drivers) ++ (handle_of_pair <$> pairs).
Proof.
  induction pairs as [|bus_address rest IH]; intros drivers ds;
    cbn [emplace_all].
  - intros [= <-]. rewrite app_nil_r. reflexivity.
  - destruct (PCA9685.new _ _ _) as [d|u] eqn:Hnew; cbn [rbind];
      [|discriminate].
    intros Hrest. rewrite (IH _ _ Hrest), fmap_app, <- app_assoc.
    cbn. rewrite (PCA9685_new_handle _ _ _ _ Hnew). reflexivity.
Qed.



Lemma new_configuration pairs frequency o :
  new pairs frequency = Ok o ->
  configuration o =
    (pairs, handle_of_pair <$> pairs,
     wrap numDrivers_bits (Z.of_nat (length pairs)), frequency) /\
  consistent o.
Proof.
  unfold new.
  destruct (emplace_all pairs frequency []) as [ds|u] eqn:Hds; cbn [rbind];
    [|discriminate].
  intros [= <-]. apply emplace_all_handles in Hds. cbn in Hds.
  unfold configuration, consistent. cbn. rewrite Hds. split; [reflexivity|].
  apply (f_equal length) in Hds. rewrite !length_fmap in Hds.
  split; [exact Hds|]. rewrite Hds. apply wrap_le. lia.
Qed.

Lemma perform_configuration c p :
  consistent (self p) ->
  exists p',
    perform c p = Ok (tt, p') /\
    configuration (self p') = configuration (self p).
Proof.
  intros Hc.
  assert (Hset : forall motorIndex on off,
             exists p', setPWM motorIndex on off p = Ok (tt, p') /\
                        configuration (self p') = configuration (self p)).
  { intros motorIndex on off.
    destruct (Z_lt_ge_dec (driverIndex_of motorIndex) (numDrivers (self p)))
      as [Hlt|Hge].
    - pose proof (driverIndex_of_nonneg motorIndex) as Hnn.
      destruct (consistent_lookup (self p) _ Hc (conj (proj1 Hnn) Hlt))
        as (driver & bus_address & Hd & Hba).
      destruct (setPWM_forward motorIndex on off p driver bus_address
                  Hlt Hd Hba) as (driver' & Hone & Hrun).
      eexists. split; [exact Hrun|].
      unfold configuration, forwarded. cbn.
      rewrite list_fmap_insert.
      rewrite setPWM_run in Hone. injection Hone as <-.
      rewrite list_insert_id; [reflexivity|].
      rewrite list_lookup_fmap, Hd. reflexivity.
    - exists p. split; [|reflexivity]. apply setPWM_skip. lia. }
  destruct c as [motorIndex on off|motorIndex val| |]; cbn [perform].
  - apply Hset.
  - apply Hset.
  - eexists. split.
    + unfold getSetup, bind, this, print, modify. cbn.
      rewrite print_all_run. reflexivity.
    + reflexivity.
  - unfold toggleDebug, bind, modify, debug. cbn.
    destruct (negb (PCA9685_DEBUG p)); eexists; (split; [reflexivity|]);
      reflexivity.
Qed.

Lemma run_configuration calls :
  forall p,
    consistent (self p) ->
    exists p',
      run calls p = Ok (tt, p') /\
      configuration (self p') = configuration (self p).
Proof.
  induction calls as [|c rest IH]; intros p Hc; cbn [run].
  - exists p. split; reflexivity.
  - destruct (perform_configuration c p Hc) as (p1 & Hrun1 & Hcfg1).
    destruct (IH p1 (configuration_consistent _ _ Hcfg1 Hc))
      as (p' & Hrun & Hcfg).
    exists p'. unfold bind. rewrite Hrun1. split; [exact Hrun|congruence].
Qed.

End Lifetime.

Section Reachability.
Context {h : Header}.

Lemma setPWM_beyond_15 motorIndex on off p p' :
  is_uint8 motorIndex -> consistent (self p) ->
  setPWM motorIndex on off p = Ok (tt, p') ->
  forall j, (16 <= j)%nat ->
    pwmDrivers (self p') !! j = pwmDrivers (self p) !! j.
Proof.
  intros Hm Hc Hrun j Hj.
  destruct (driverIndex_of_uint8 motorIndex Hm) as [Hd Hdr].
  destruct (Z_lt_ge_dec (driverIndex_of motorIndex) (numDrivers (self p)))
    as [Hlt|Hge].
  - destruct (consistent_lookup (self p) (driverIndex_of motorIndex) Hc)
      as (driver & bus_address & Hdrv & Hba); [lia|].
    destruct (setPWM_forward motorIndex on off p driver bus_address
                Hlt Hdrv Hba) as (driver' & _ & Hfw).
    rewrite Hfw in Hrun. injection Hrun as <-.
    cbn [forwarded self pwmDrivers].
    apply list_lookup_insert_ne. lia.
  - rewrite setPWM_skip in Hrun by lia. now injection Hrun as <-.
Qed.

Lemma perform_beyond_15 c p p' :
  uint8_call c -> consistent (self p) ->
  perform c p = Ok (tt, p') ->
  forall j, (16 <= j)%nat ->
    pwmDrivers (self p') !! j = pwmDrivers (self p) !! j.
Proof.
  intros Hu Hc Hrun j Hj.
  destruct c as [motorIndex on off|motorIndex val| |];
    cbn [perform uint8_call] in Hu, Hrun.
  - eapply setPWM_beyond_15; eassumption.
  - unfold setPWM2 in Hrun. eapply setPWM_beyond_15; eassumption.
  - unfold getSetup, bind, this, print, modify in Hrun. cbn in Hrun.
    rewrite print_all_run in Hrun. now injection Hrun as <-.
  - unfold toggleDebug, bind, modify, debug in Hrun. cbn in Hrun.
    destruct (negb (PCA9685_DEBUG p)); now injection Hrun as <-.
Qed.

Lemma run_beyond_15 calls :
  forall p,
    Forall uint8_call calls -> consistent (self p) ->
    exists p',
      run calls p = Ok (tt, p') /\
      forall j, (16 <= j)%nat ->
        pwmDrivers (self p') !! j = pwmDrivers (self p) !! j.
Proof.
  induction calls as [|c rest IH]; intros p Hu Hc; cbn [run].
  - exists p. split; [reflexivity|auto].
  - apply Forall_cons in Hu as [Hu1 Hu].
    destruct (perform_configuration c p Hc) as (p1 & Hrun1 & Hcfg1).
    destruct (IH p1 Hu (configuration_consistent _ _ Hcfg1 Hc))
      as (p' & Hrun & Hsame).
    exists p'. unfold bind. rewrite Hrun1. split; [exact Hrun|].
    intros j Hj. rewrite (Hsame j Hj).
    eapply perform_beyond_15; eassumption.
Qed.

End Reachability.

(** C8: the configuration is fixed at construction. After any sequence of
    calls of [setPWM], [toggleDebug] and [getSetup] on the constructed
    aggregator (which all return), the pairs, the drivers' handles in
    order, the driver count and the frequency are those the constructor
    set, so a flat index [i] in range still resolves to the driver that
    was opened for the pair at position [i / 16]. *)
Theorem configuration_fixed_at_construction {h : Header} :
  forall pairs frequency o dbg calls,
    new pairs frequency = Ok o ->
    exists p',
      run calls (start o dbg) = Ok (tt, p') /\
      busAddressPairs (self p') = pairs /\
      handle <$> pwmDrivers (self p') = handle_of_pair <$> pairs /\
      length (pwmDrivers (self p')) = length pairs /\
      numDrivers (self p') = numDrivers o /\
      numDrivers o = wrap numDrivers_bits (Z.of_nat (length pairs)) /\
      DevFrequency (self p') = frequency /\
      (forall i,
         is_uint8 i -> i / 16 < numDrivers (self p') ->
         exists bus_address driver,
           pairs !! Z.to_nat (i / 16) = Some bus_address /\
           pwmDrivers (self p') !! Z.to_nat (driverIndex_of i) = Some driver /\
           handle driver = handle_of_pair bus_address).
Proof.
  intros pairs frequency o dbg calls Hnew.
  destruct (new_configuration pairs frequency o Hnew) as [Hcfg0 Hc0].
  destruct (run_configuration calls (start o dbg) Hc0) as (p' & Hrun & Hcfg).
  cbn [start self] in Hcfg. rewrite Hcfg0 in Hcfg.
  assert (Hc : consistent (self p')).
  { eapply configuration_consistent; [|exact Hc0]. congruence. }
  unfold configuration in Hcfg0, Hcfg.
  injection Hcfg0 as _ _ Hn0 _. injection Hcfg as Hp Hh Hn Hf.
  exists p'. repeat split; try assumption; try congruence.
  - apply (f_equal length) in Hh. now rewrite !length_fmap in Hh.
  - intros i Hi Hlt.
    destruct (driverIndex_of_uint8 i Hi) as [Hd Hdr]. rewrite Hd.
    destruct (consistent_lookup (self p') (i / 16) Hc)
      as (driver & bus_address & Hdrv & Hba); [lia|].
    exists bus_address, driver. rewrite <- Hp. split; [exact Hba|].
    split; [exact Hdrv|].
    apply (f_equal (fun l => l !! Z.to_nat (i / 16))) in Hh.
    rewrite !list_lookup_fmap, Hdrv, <- Hp, Hba in Hh. cbn in Hh.
    congruence.
Qed.

(** C9: the motor index of both [setPWM] overloads is a [uint8_t], so it
    is one of 0..255 and the driver index it resolves to is at most 15;
    whatever calls a client makes, the drivers at position 16 and above
    are never written to, however many are configured. *)
Theorem drivers_from_16_unreachable {h : Header} :
  forall calls p,
    consistent (self p) -> Forall uint8_call calls ->
    (forall motorIndex,
       is_uint8 motorIndex -> 0 <= driverIndex_of motorIndex <= 15) /\
    exists p',
      run calls p = Ok (tt, p') /\
      forall j, (16 <= j)%nat ->
        pwmDrivers (self p') !! j = pwmDrivers (self p) !! j.
Proof.
  intros calls p Hc Hu. split.
  - intros motorIndex Hm.
    destruct (driverIndex_of_uint8 motorIndex Hm) as [-> Hr]. exact Hr.
  - apply run_beyond_15; assumption.
Qed.

(** ** Worked scenarios *)

Lemma two_chips_constructed : new (h := datasheet) two_pairs 50 = Ok two_chips.
Proof. vm_compute. reflexivity. Qed.

Lemma seventeen_chips_constructed :
  new (h := datasheet) seventeen_pairs 50 = Ok seventeen_chips.
Proof. vm_compute. reflexivity. Qed.

Lemma setPWM_resolves_div_mod_16_at_16 :
  (is_uint8 16 /\ consistent two_chips) /\
  driverIndex_of 16 = 1 /\ channel_of 16 = 0 /\
  exists driver',
    PCA9685.setPWM (h := datasheet) 0 0 2000 (constructed_at_50 3 0x41)
      = Ok (tt, driver') /\
    setPWM (h := datasheet) 16 0 2000 (start two_chips false) =
      Ok (tt, forwarded (start two_chips false) 16 0 2000 (3, 0x41) driver').
Proof.
  assert (Hm : is_uint8 16) by (unfold is_uint8; lia).
  assert (Hc : consistent two_chips)
    by (split; [reflexivity|vm_compute; discriminate]).
  split; [split; assumption|].
  destruct (setPWM_resolves_div_mod_16 (h := datasheet)
              16 0 2000 (start two_chips false) Hm Hc)
    as (Hd & Hch & Hfw & _).
  split; [exact Hd|]. split; [exact Hch|].
  destruct Hfw as (driver & bus_address & driver' & Hdrv & Hba & Hone & Hrun & _);
    [vm_compute; reflexivity|].
  injection Hdrv as <-. injection Hba as <-.
  exists driver'. split; [exact Hone|exact Hrun].
Defined.

Lemma setPWM_out_of_range_is_silent_at_32 :
  (is_uint8 32 /\ numDrivers two_chips <= 32 / 16) /\
  setPWM (h := datasheet) 32 0 2000 (start two_chips true)
    = Ok (tt, start two_chips true).
Proof.
  assert (Hm : is_uint8 32) by (unfold is_uint8; lia).
  assert (Hge : numDrivers (self (start two_chips true)) <= 32 / 16)
    by (vm_compute; discriminate).
  split; [split; assumption|].
  exact (proj1 (setPWM_out_of_range_is_silent (h := datasheet)
                  32 0 2000 (start two_chips true) Hm Hge)).
Defined.

Lemma configuration_fixed_at_construction_two_chips :
  new (h := datasheet) two_pairs 50 = Ok two_chips /\
  exists p',
    run (h := datasheet)
        [SetPWM2 16 2000; ToggleDebug; SetPWM 17 5 300; GetSetup;
         SetPWM2 32 2000]
        (start two_chips false) = Ok (tt, p') /\
    busAddressPairs (self p') = two_pairs /\
    handle <$> pwmDrivers (self p') = [(1, 0x40); (3, 0x41)] /\
    numDrivers (self p') = 2 /\
    DevFrequency (self p') = 50.
Proof.
  assert (Hnew : new (h := datasheet) two_pairs 50 = Ok two_chips)
    by (vm_compute; reflexivity).
  split; [exact Hnew|].
  destruct (configuration_fixed_at_construction (h := datasheet)
              two_pairs 50 two_chips false
              [SetPWM2 16 2000; ToggleDebug; SetPWM 17 5 300; GetSetup;
               SetPWM2 32 2000] Hnew)
    as (p' & Hrun & Hp & Hh & _ & Hn & _ & Hf & _).
  exists p'. repeat split; assumption.
Defined.

Lemma drivers_from_16_unreachable_seventeen_chips :
  (consistent seventeen_chips /\
   Forall uint8_call [SetPWM 255 0 100; SetPWM2 0 5; ToggleDebug]) /\
  exists p',
    run (h := datasheet) [SetPWM 255 0 100; SetPWM2 0 5; ToggleDebug]
        (start seventeen_chips false) = Ok (tt, p') /\
    pwmDrivers (self p') !! 16%nat = Some (constructed_at_50 1 0x50).
Proof.
  assert (Hc : consistent (self (start seventeen_chips false)))
    by (split; [reflexivity|vm_compute; discriminate]).
  assert (Hu : Forall uint8_call [SetPWM 255 0 100; SetPWM2 0 5; ToggleDebug])
    by (repeat constructor; unfold is_uint8; lia).
  split; [split; assumption|].
  destruct (proj2 (drivers_from_16_unreachable (h := datasheet)
                     [SetPWM 255 0 100; SetPWM2 0 5; ToggleDebug]
                     (start seventeen_chips false) Hc Hu))
    as (p' & Hrun & Hsame).
  exists p'. split; [exact Hrun|].
  rewrite (Hsame 16%nat (le_n 16)). reflexivity.
Defined.

(** * Further properties *)

(** ** Construction *)

Section Construction.
Context {h : Header}.

Lemma PCA9685_new_initialised b a freq p :
  PCA9685.prescale_val freq = Ok p ->
  PCA9685.new b a freq = Ok (initialised p b a).
Proof. intros Hp. rewrite PCA9685_new_run, Hp. reflexivity. Qed.

Lemma PCA9685_new_undefined b a freq u :
  PCA9685.prescale_val freq = Undefined u ->
  PCA9685.new b a freq = Undefined u.
Proof. intros Hp. rewrite PCA9685_new_run, Hp. reflexivity. Qed.

Lemma emplace_all_run pairs frequency p :
  PCA9685.prescale_val frequency = Ok p ->
  forall drivers,
    emplace_all pairs frequency drivers =
      Ok (drivers ++
          ((fun ba => initialised p (u8 (fst ba)) (snd ba)) <$> pairs)).
Proof.
  intros Hp. induction pairs as [|ba rest IH]; intros drivers;
    cbn [emplace_all fmap list_fmap].
  - rewrite app_nil_r. reflexivity.
  - rewrite (PCA9685_new_initialised _ _ _ _ Hp). cbn [rbind].
    rewrite IH, <- app_assoc. reflexivity.
Qed.

Lemma new_nonempty_prescale ba rest frequency o :
  new (ba :: rest) frequency = Ok o ->
  exists p, PCA9685.prescale_val frequency = Ok p.
Proof.
  unfold new. cbn [emplace_all].
  destruct (PCA9685.prescale_val frequency) as [p|u] eqn:Hp; [eauto|].
  rewrite (PCA9685_new_undefined _ _ _ _ Hp). discriminate.
Qed.

End Construction.

(** X1: constructing a chip at a [uint8_t] frequency from 24 Hz on
    returns the chip bound to (bus, address) that has received exactly
    the reset write and the three writes of [setFreq], with the prescale
    byte of the formula; below 24 Hz (0 included) the constructor has
    undefined behaviour. *)
Theorem PCA9685_constructor_from_24Hz {h : Header} :
  forall b a freq,
    is_uint8 freq ->
    (24 <= freq ->
     PCA9685.new b a freq =
       Ok {| PCA9685.i2c :=
               {| bus := b; deviceAddress := a;
                  written :=
                    [WriteByte MODE1 0x20; WriteByte MODE1 0x10;
                     WriteByte PRE_SCALE (computePrescale 25000000 freq);
                     WriteByte MODE1 0xA0] |} |}) /\
    (freq < 24 -> exists u, PCA9685.new b a freq = Undefined u).
Proof.
  intros b a freq H8. split.
  - intros H24.
    assert (Hr : chip_range freq) by (unfold chip_range, is_uint8 in *; lia).
    rewrite (PCA9685_new_initialised _ _ _ _ (prescale_val_in_range freq H8 Hr)).
    reflexivity.
  - intros Hlt.
    destruct (PCA9685.prescale_val freq) as [p|u] eqn:Hp.
    + assert (24 <= freq) by (apply prescale_val_defined_iff; eauto). lia.
    + exists u. apply PCA9685_new_undefined, Hp.
Qed.

Lemma PCA9685_constructor_from_24Hz_at_60 :
  is_uint8 60 /\
  PCA9685.new (h := datasheet) 1 0x40 60 =
    Ok {| PCA9685.i2c :=
            {| bus := 1; deviceAddress := 0x40;
               written := [WriteByte 0x00 0x20; WriteByte 0x00 0x10;
                           WriteByte 0xFE 101; WriteByte 0x00 0xA0] |} |}.
Proof.
  assert (H8 : is_uint8 60) by (unfold is_uint8; lia).
  split; [exact H8|].
  refine (proj1 (PCA9685_constructor_from_24Hz (h := datasheet)
                   1 0x40 60 H8) _).
  lia.
Defined.



(** X3: a constructed aggregator holds one driver per pair, in the order
    of the pairs; the driver at position [k] is bound to the bus of pair
    [k] reduced to a [uint8_t] and to its address, and has received the
    reset write and the three writes of [setFreq], nothing else. *)
Theorem MultiPCA9685_constructor_drivers {h : Header} :
  forall pairs frequency o,
    new pairs frequency = Ok o ->
    length (pwmDrivers o) = length pairs /\
    forall k bus_address,
      pairs !! k = Some bus_address ->
      exists p,
        PCA9685.prescale_val frequency = Ok p /\
        pwmDrivers o !! k =
          Some {| PCA9685.i2c :=
                    {| bus := fst bus_address mod 256;
                       deviceAddress := snd bus_address;
                       written :=
                         [WriteByte MODE1 0x20; WriteByte MODE1 0x10;
                          WriteByte PRE_SCALE p; WriteByte MODE1 0xA0] |} |}.
Proof.
  intros pairs frequency o Hnew.
  assert (Hcase : pairs = [] \/
                  exists p, PCA9685.prescale_val frequency = Ok p).
  { destruct pairs as [|ba rest]; [now left|right].
    eapply new_nonempty_prescale, Hnew. }
  destruct Hcase as [->|[p Hp]].
  - injection Hnew as <-. split; [reflexivity|]. intros k ? Hk. discriminate.
  - unfold new in Hnew. rewrite (emplace_all_run _ _ _ Hp) in Hnew.
    unfold rbind in Hnew. rewrite app_nil_l in Hnew.
    injection Hnew as <-. unfold pwmDrivers.
    split; [apply length_fmap|].
    intros k bus_address Hk. exists p. split; [exact Hp|].
    rewrite list_lookup_fmap, Hk. reflexivity.
Qed.

Lemma MultiPCA9685_constructor_drivers_two_chips :
  new (h := datasheet) [(1, 0x40); (259, 0x41)] 50 =
    Ok {| busAddressPairs := [(1, 0x40); (259, 0x41)];
          pwmDrivers := [constructed_at_50 1 0x40; constructed_at_50 3 0x41];
          numDrivers := 2; DevFrequency := 50 |} /\
  exists p,
    PCA9685.prescale_val 50 = Ok p /\
    [constructed_at_50 1 0x40; constructed_at_50 3 0x41] !! 1%nat =
      Some {| PCA9685.i2c :=
                {| bus := 3; deviceAddress := 0x41;
                   written := [WriteByte 0x00 0x20; WriteByte 0x00 0x10;
                               WriteByte 0xFE p; WriteByte 0x00 0xA0] |} |}.
Proof.
  assert (Hnew : new (h := datasheet) [(1, 0x40); (259, 0x41)] 50 =
                 Ok {| busAddressPairs := [(1, 0x40); (259, 0x41)];
                       pwmDrivers := [constructed_at_50 1 0x40;
                                      constructed_at_50 3 0x41];
                       numDrivers := 2; DevFrequency := 50 |})
    by (vm_compute; reflexivity).
  split; [exact Hnew|].
  exact (proj2 (MultiPCA9685_constructor_drivers (h := datasheet)
                  _ 50 _ Hnew) 1%nat (259, 0x41) eq_refl).
Defined.

(** ** The console: [toggleDebug] and [getSetup] *)

(** X4: [toggleDebug] flips the flag and prints the line of the new
    state; a second call restores the flag and prints the other line.
    Neither call touches the aggregator or any transport. *)
Theorem toggleDebug_twice_restores :
  forall p,
    exists p1 p2,
      toggleDebug p = Ok (tt, p1) /\
      PCA9685_DEBUG p1 = negb (PCA9685_DEBUG p) /\
      self p1 = self p /\
      cout p1 = cout p ++ [debug_line (negb (PCA9685_DEBUG p))] /\
      toggleDebug p1 = Ok (tt, p2) /\
      PCA9685_DEBUG p2 = PCA9685_DEBUG p /\
      self p2 = self p /\
      cout p2 = cout p ++ [debug_line (negb (PCA9685_DEBUG p));
                           debug_line (PCA9685_DEBUG p)].
Proof.
  intros [o dbg out]. unfold toggleDebug, bind, modify, debug. cbn.
  destruct dbg; cbn; do 2 eexists;
    repeat (split; [reflexivity|]); cbn; rewrite <- app_assoc; reflexivity.
Qed.

Lemma driver_lines_length pairs :
  forall i, length (driver_lines i pairs) = length pairs.
Proof.
  induction pairs as [|ba rest IH]; intros i; cbn [driver_lines length];
    [reflexivity|]. now rewrite IH.
Qed.

Lemma driver_lines_lookup pairs :
  forall i k,
    driver_lines i pairs !! k =
      (fun ba => DriverLine (i + Z.of_nat k + 1) (fst ba) (snd ba))
        <$> pairs !! k.
Proof.
  induction pairs as [|ba rest IH]; intros i k; cbn [driver_lines].
  - reflexivity.
  - destruct k as [|k].
    + cbn. now rewrite Z.add_0_r.
    + change ((DriverLine (i + 1) ba.1 ba.2 :: driver_lines (i + 1) rest)
                !! S k) with (driver_lines (i + 1) rest !! k).
      change ((ba :: rest) !! S k) with (rest !! k).
      rewrite IH. destruct (rest !! k); cbn; [|reflexivity].
      do 2 f_equal. lia.
Qed.

(** X5: [getSetup] prints the banner, the stored driver count, the
    frequency, and then one line per configured pair, in the order of
    the pairs and numbered from 1, each with the bus and address of its
    pair; the number of driver lines is the number of pairs, whatever
    [numDrivers] holds. It changes nothing but the console. *)
Theorem getSetup_lists_pairs_in_order :
  forall p,
    exists lines,
      getSetup p =
        Ok (tt, {| self := self p; PCA9685_DEBUG := PCA9685_DEBUG p;
                   cout := cout p
                             ++ [ConfigurationBanner;
                                 NumberOfDrivers (numDrivers (self p));
                                 DeviceFrequency (DevFrequency (self p));
                                 BlankLine]
                             ++ lines ++ [BlankLine] |}) /\
      length lines = length (busAddressPairs (self p)) /\
      forall k,
        lines !! k =
          (fun ba => DriverLine (Z.of_nat k + 1) (fst ba) (snd ba))
            <$> busAddressPairs (self p) !! k.
Proof.
  intros p. exists (driver_lines 0 (busAddressPairs (self p))). split.
  - unfold getSetup, bind, this, print, modify. cbn.
    rewrite print_all_run. cbn. rewrite <- !app_assoc. reflexivity.
  - split; [apply driver_lines_length|].
    intros k. rewrite driver_lines_lookup. reflexivity.
Qed.

(** ** The register block of a channel *)

Lemma data_all_bytes on_value off_value :
  length (PCA9685.data on_value off_value) = 4%nat /\
  Forall is_uint8 (PCA9685.data on_value off_value).
Proof.
  split; [reflexivity|].
  unfold PCA9685.data, is_uint8, u8, wrap. change (2 ^ 8) with 256.
  repeat constructor; apply Z.mod_pos_bound; lia.
Qed.

(** X6: the four bytes [setPWM] sends for 16-bit [on] and [off] read back,
    low byte first, as exactly [on] and [off]: the encoding loses
    nothing, and two calls send the same bytes only for the same
    values. *)
Theorem data_round_trip :
  forall on_value off_value,
    is_uint16 on_value -> is_uint16 off_value ->
    decode (PCA9685.data on_value off_value) = Some (on_value, off_value) /\
    (forall on' off',
       is_uint16 on' -> is_uint16 off' ->
       PCA9685.data on_value off_value = PCA9685.data on' off' ->
       on_value = on' /\ off_value = off').
Proof.
  intros on_value off_value Hon Hoff.
  assert (Hrt : forall a b, is_uint16 a -> is_uint16 b ->
                  decode (PCA9685.data a b) = Some (a, b)).
  { intros a b Ha Hb. rewrite data_bytes by assumption. cbn [decode].
    pose proof (Z.div_mod a 256). pose proof (Z.div_mod b 256).
    do 2 f_equal; lia. }
  split; [apply Hrt; assumption|].
  intros on' off' Hon' Hoff' Heq.
  pose proof (Hrt on_value off_value Hon Hoff) as H1.
  rewrite Heq, (Hrt on' off' Hon' Hoff') in H1.
  injection H1 as -> ->. auto.
Qed.

Lemma data_round_trip_0x1155 :
  (is_uint16 0x1155 /\ is_uint16 0xFFFF) /\
  decode (PCA9685.data 0x1155 0xFFFF) = Some (0x1155, 0xFFFF).
Proof.
  assert (Hon : is_uint16 0x1155) by (unfold is_uint16; lia).
  assert (Hoff : is_uint16 0xFFFF) by (unfold is_uint16; lia).
  split; [split; assumption|].
  exact (proj1 (data_round_trip 0x1155 0xFFFF Hon Hoff)).
Defined.

(** X7: the blocks [setPWM] writes for two different channels do not
    overlap: no register of the four of one channel is a register of the
    other. *)
Theorem setPWM_blocks_disjoint {h : Header} :
  forall servo1 servo2 on1 off1 on2 off2 chip,
    servo1 <> servo2 ->
    exists reg1 reg2,
      PCA9685.setPWM servo1 on1 off1 chip =
        Ok (tt, {| PCA9685.i2c :=
                     log (WriteBlock reg1 (PCA9685.data on1 off1) 4)
                         (PCA9685.i2c chip) |}) /\
      PCA9685.setPWM servo2 on2 off2 chip =
        Ok (tt, {| PCA9685.i2c :=
                     log (WriteBlock reg2 (PCA9685.data on2 off2) 4)
                         (PCA9685.i2c chip) |}) /\
      forall k1 k2, 0 <= k1 < 4 -> 0 <= k2 < 4 -> reg1 + k1 <> reg2 + k2.
Proof.
  intros servo1 servo2 on1 off1 on2 off2 chip Hne.
  exists (block_of servo1), (block_of servo2).
  split; [apply setPWM_run|]. split; [apply setPWM_run|].
  unfold block_of, MULTIPLIER. intros k1 k2 Hk1 Hk2. lia.
Qed.

Lemma setPWM_blocks_disjoint_ch0_ch1 :
  0 <> 1 /\
  exists reg1 reg2,
    PCA9685.setPWM (h := datasheet) 0 0 100 fresh_chip =
      Ok (tt, {| PCA9685.i2c :=
                   log (WriteBlock reg1 (PCA9685.data 0 100) 4)
                       (PCA9685.i2c fresh_chip) |}) /\
    reg1 + 3 <> reg2 + 0.
Proof.
  assert (Hne : 0 <> 1) by lia.
  split; [exact Hne|].
  destruct (setPWM_blocks_disjoint (h := datasheet) 0 1 0 100 0 100
              fresh_chip Hne) as (reg1 & reg2 & H1 & _ & Hd).
  exists reg1, reg2. split; [exact H1|]. apply Hd; lia.
Defined.

(** ** A command through the aggregator *)

Section Forwarding.
Context {h : Header}.

Lemma setPWM_forward_block motorIndex on off p driver bus_address :
  driverIndex_of motorIndex < numDrivers (self p) ->
  pwmDrivers (self p) !! Z.to_nat (driverIndex_of motorIndex) = Some driver ->
  busAddressPairs (self p) !! Z.to_nat (driverIndex_of motorIndex)
    = Some bus_address ->
  setPWM motorIndex on off p =
    Ok (tt, forwarded p motorIndex on off bus_address
              {| PCA9685.i2c := log (block_for motorIndex on off)
                                    (PCA9685.i2c driver) |}).
Proof.
  intros Hlt Hd Hba.
  destruct (setPWM_forward motorIndex on off p driver bus_address Hlt Hd Hba)
    as (driver' & Hone & Hrun).
  rewrite setPWM_run in Hone. injection Hone as <-. exact Hrun.
Qed.

Lemma block_for_channel_block motorIndex on off :
  is_uint8 motorIndex -> channel_block (block_for motorIndex on off).
Proof.
  intros Hm. exists (channel_of motorIndex), (PCA9685.data on off).
  destruct (channel_of_uint8 motorIndex Hm) as [Hch Hr].
  split; [reflexivity|]. split; [rewrite Hch; exact Hr|].
  apply data_all_bytes.
Qed.

End Forwarding.

(** X8: a command for a configured driver reaches exactly that driver:
    its transport receives one block of four bytes, the little-endian
    [on] and [off], at the registers of channel [motorIndex mod 16];
    every other driver is left as it was, the flag is unchanged, and the
    console grows by one line when the debug flag is set and not at all
    otherwise. *)
Theorem setPWM_reaches_one_driver {h : Header} :
  forall motorIndex on off p,
    is_uint8 motorIndex -> is_uint16 on -> is_uint16 off ->
    consistent (self p) ->
    motorIndex / 16 < numDrivers (self p) ->
    exists driver p',
      pwmDrivers (self p) !! Z.to_nat (motorIndex / 16) = Some driver /\
      setPWM motorIndex on off p = Ok (tt, p') /\
      pwmDrivers (self p') !! Z.to_nat (motorIndex / 16) =
        Some {| PCA9685.i2c :=
                  {| bus := bus (PCA9685.i2c driver);
                     deviceAddress := deviceAddress (PCA9685.i2c driver);
                     written :=
                       written (PCA9685.i2c driver)
                         ++ [WriteBlock (SERVO0 + 4 * (motorIndex mod 16))
                               [on mod 256; on / 256; off mod 256; off / 256]
                               4] |} |} /\
      (forall j, j <> Z.to_nat (motorIndex / 16) ->
                 pwmDrivers (self p') !! j = pwmDrivers (self p) !! j) /\
      PCA9685_DEBUG p' = PCA9685_DEBUG p /\
      length (cout p') =
        (length (cout p) + (if PCA9685_DEBUG p then 1 else 0))%nat.
Proof.
  intros motorIndex on off p Hm Hon Hoff Hc Hlt.
  destruct (driverIndex_of_uint8 motorIndex Hm) as [Hd Hdr].
  destruct (channel_of_uint8 motorIndex Hm) as [Hch _].
  destruct (consistent_lookup (self p) (motorIndex / 16) Hc)
    as (driver & bus_address & Hdrv & Hba); [lia|].
  exists driver. eexists. split; [exact Hdrv|].
  split; [apply setPWM_forward_block
            with (driver := driver) (bus_address := bus_address);
          rewrite ?Hd; assumption|].
  cbn [forwarded self pwmDrivers PCA9685_DEBUG cout]. rewrite Hd.
  split; [|split; [|split]].
  - rewrite list_lookup_insert_eq by (eapply lookup_lt_Some, Hdrv).
    unfold block_for, block_of, log. rewrite Hch, data_bytes by assumption.
    reflexivity.
  - intros j Hj. apply list_lookup_insert_ne. congruence.
  - reflexivity.
  - rewrite length_app. destruct (PCA9685_DEBUG p); reflexivity.
Qed.

Lemma setPWM_reaches_one_driver_at_17 :
  (is_uint8 17 /\ is_uint16 5 /\ is_uint16 300 /\ consistent two_chips /\
   17 / 16 < numDrivers two_chips) /\
  exists p',
    setPWM (h := datasheet) 17 5 300 (start two_chips true) = Ok (tt, p') /\
    pwmDrivers (self p') !! 1%nat =
      Some {| PCA9685.i2c :=
                {| bus := 3; deviceAddress := 0x41;
                   written := [WriteByte 0x00 0x20; WriteByte 0x00 0x10;
                               WriteByte 0xFE 121; WriteByte 0x00 0xA0;
                               WriteBlock 10 [5; 0; 44; 1] 4] |} |} /\
    pwmDrivers (self p') !! 0%nat = Some (constructed_at_50 1 0x40) /\
    length (cout p') = 1%nat.
Proof.
  assert (Hm : is_uint8 17) by (unfold is_uint8; lia).
  assert (Hon : is_uint16 5) by (unfold is_uint16; lia).
  assert (Hoff : is_uint16 300) by (unfold is_uint16; lia).
  assert (Hc : consistent (self (start two_chips true)))
    by (split; [reflexivity|vm_compute; discriminate]).
  assert (Hlt : 17 / 16 < numDrivers (self (start two_chips true)))
    by (vm_compute; reflexivity).
  split; [auto|].
  destruct (setPWM_reaches_one_driver (h := datasheet) 17 5 300
              (start two_chips true) Hm Hon Hoff Hc Hlt)
    as (driver & p' & Hdrv & Hrun & Hnew & Hothers & _ & Hout).
  injection Hdrv as <-.
  exists p'. split; [exact Hrun|]. split; [exact Hnew|].
  split; [|exact Hout].
  rewrite (Hothers 0%nat); [reflexivity|discriminate].
Defined.

(** ** What a sequence of calls can do *)

Section Continuation.
Context {h : Header}.

Lemma continues_console p p' ls :
  self p' = self p -> cout p' = cout p ++ ls -> continues p p'.
Proof.
  intros Hs Hc. unfold continues. rewrite Hs. split; [reflexivity|].
  split; [|eauto].
  intros k d Hd. exists d, []. rewrite app_nil_r. auto.
Qed.

Lemma continues_trans p1 p2 p3 :
  continues p1 p2 -> continues p2 p3 -> continues p1 p3.
Proof.
  intros (Hl12 & Hd12 & ls12 & Hc12) (Hl23 & Hd23 & ls23 & Hc23).
  split; [congruence|]. split.
  - intros k d Hd.
    destruct (Hd12 k d Hd) as (d2 & b12 & Hk2 & Hh2 & Hw2 & Hb2).
    destruct (Hd23 k d2 Hk2) as (d3 & b23 & Hk3 & Hh3 & Hw3 & Hb3).
    exists d3, (b12 ++ b23). split; [exact Hk3|]. split; [congruence|].
    split; [rewrite Hw3, Hw2, app_assoc; reflexivity|].
    apply Forall_app; auto.
  - exists (ls12 ++ ls23). rewrite Hc23, Hc12, app_assoc. reflexivity.
Qed.

Lemma setPWM_continues motorIndex on off p p' :
  is_uint8 motorIndex -> consistent (self p) ->
  setPWM motorIndex on off p = Ok (tt, p') ->
  continues p p'.
Proof.
  intros Hm Hc Hrun.
  destruct (Z_lt_ge_dec (driverIndex_of motorIndex) (numDrivers (self p)))
    as [Hlt|Hge].
  - pose proof (driverIndex_of_nonneg motorIndex) as Hnn.
    destruct (consistent_lookup (self p) _ Hc (conj (proj1 Hnn) Hlt))
      as (driver & bus_address & Hd & Hba).
    rewrite (setPWM_forward_block _ _ _ _ _ _ Hlt Hd Hba) in Hrun.
    injection Hrun as <-. unfold continues.
    cbn [forwarded self pwmDrivers cout].
    split; [apply length_insert|]. split; [|eauto].
    intros k d Hk.
    destruct (Nat.eq_dec k (Z.to_nat (driverIndex_of motorIndex))) as [->|Hne].
    + rewrite list_lookup_insert_eq by (eapply lookup_lt_Some, Hd).
      rewrite Hd in Hk. injection Hk as <-.
      eexists _, [block_for motorIndex on off].
      split; [reflexivity|]. split; [reflexivity|]. split; [reflexivity|].
      constructor; [apply block_for_channel_block, Hm|constructor].
    + rewrite list_lookup_insert_ne by congruence.
      exists d, []. rewrite app_nil_r. auto.
  - rewrite setPWM_skip in Hrun by lia. injection Hrun as <-.
    apply continues_console with (ls := []); [reflexivity|].
    now rewrite app_nil_r.
Qed.

Lemma perform_continues c p p' :
  uint8_call c -> consistent (self p) ->
  perform c p = Ok (tt, p') ->
  continues p p'.
Proof.
  intros Hu Hc Hrun.
  destruct c as [motorIndex on off|motorIndex val| |];
    cbn [perform uint8_call] in Hu, Hrun.
  - eapply setPWM_continues; eassumption.
  - unfold setPWM2 in Hrun. eapply setPWM_continues; eassumption.
  - unfold getSetup, bind, this, print, modify in Hrun. cbn in Hrun.
    rewrite print_all_run in Hrun. injection Hrun as <-. cbn [cout].
    eapply continues_console; [reflexivity|]. cbn [cout].
    rewrite <- !app_assoc. reflexivity.
  - unfold toggleDebug, bind, modify, debug in Hrun. cbn in Hrun.
    destruct (negb (PCA9685_DEBUG p)); injection Hrun as <-;
      eapply continues_console; reflexivity.
Qed.

End Continuation.

(** X9: whatever calls a client makes on an aggregator, with [uint8_t]
    motor indices, they all return, the drivers stay in place on their
    handles, the console only grows, and every transfer a transport
    receives is a block of four bytes at the registers of one of the
    channels 0..15: after construction nothing writes MODE1 or PRE_SCALE
    through the register argument, and no transfer is ever removed. *)
Theorem run_only_adds_channel_blocks {h : Header} :
  forall calls p,
    consistent (self p) -> Forall uint8_call calls ->
    exists p',
      run calls p = Ok (tt, p') /\
      length (pwmDrivers (self p')) = length (pwmDrivers (self p)) /\
      (forall k d,
         pwmDrivers (self p) !! k = Some d ->
         exists d' blocks,
           pwmDrivers (self p') !! k = Some d' /\
           handle d' = handle d /\
           written (PCA9685.i2c d') = written (PCA9685.i2c d) ++ blocks /\
           Forall (fun t =>
                     exists channel bytes,
                       t = WriteBlock (SERVO0 + 4 * channel) bytes 4 /\
                       0 <= channel <= 15 /\
                       length bytes = 4%nat /\ Forall is_uint8 bytes)
                  blocks) /\
      (exists ls, cout p' = cout p ++ ls).
Proof.
  intros calls p Hc Hu.
  enough (Hgoal : exists p', run calls p = Ok (tt, p') /\ continues p p').
  { destruct Hgoal as (p' & Hrun & Hl & Hd & Hout). exists p'. auto. }
  revert p Hc. induction Hu as [|c rest Hu1 Hu IH]; intros p Hc; cbn [run].
  - exists p. split; [reflexivity|].
    apply continues_console with (ls := []); [reflexivity|].
    now rewrite app_nil_r.
  - destruct (perform_configuration c p Hc) as (p1 & Hrun1 & Hcfg1).
    destruct (IH p1 (configuration_consistent _ _ Hcfg1 Hc))
      as (p' & Hrun & Hcont).
    exists p'. unfold bind. rewrite Hrun1. split; [exact Hrun|].
    eapply continues_trans; [|exact Hcont].
    eapply perform_continues; eassumption.
Qed.

Lemma run_only_adds_channel_blocks_two_chips :
  (consistent two_chips /\
   Forall uint8_call [SetPWM2 17 300; ToggleDebug; SetPWM 16 1 2; GetSetup]) /\
  exists p',
    run (h := datasheet) [SetPWM2 17 300; ToggleDebug; SetPWM 16 1 2; GetSetup]
        (start two_chips false) = Ok (tt, p') /\
    length (pwmDrivers (self p')) = 2%nat.
Proof.
  assert (Hc : consistent (self (start two_chips false)))
    by (split; [reflexivity|vm_compute; discriminate]).
  assert (Hu : Forall uint8_call
                 [SetPWM2 17 300; ToggleDebug; SetPWM 16 1 2; GetSetup])
    by (repeat constructor; unfold is_uint8; lia).
  split; [split; assumption|].
  destruct (run_only_adds_channel_blocks (h := datasheet) _ _ Hc Hu)
    as (p' & Hrun & Hlen & _).
  exists p'. split; [exact Hrun|exact Hlen].
Defined.

(** ** Commands for different drivers *)

Section Commute.
Context {h : Header}.

Lemma forwarded_consistent p motorIndex on off bus_address driver' :
  consistent (self p) ->
  consistent (self (forwarded p motorIndex on off bus_address driver')).
Proof.
  unfold consistent. cbn [forwarded self pwmDrivers busAddressPairs numDrivers].
  rewrite length_insert. auto.
Qed.

(** The program after [setPWM], as a function of the program before. *)
Lemma setPWM_cases motorIndex on off p :
  consistent (self p) ->
  (numDrivers (self p) <= driverIndex_of motorIndex /\
   setPWM motorIndex on off p = Ok (tt, p)) \/
  (exists driver bus_address,
     driverIndex_of motorIndex < numDrivers (self p) /\
     pwmDrivers (self p) !! Z.to_nat (driverIndex_of motorIndex)
       = Some driver /\
     busAddressPairs (self p) !! Z.to_nat (driverIndex_of motorIndex)
       = Some bus_address /\
     setPWM motorIndex on off p =
       Ok (tt, forwarded p motorIndex on off bus_address
                 {| PCA9685.i2c := log (block_for motorIndex on off)
                                       (PCA9685.i2c driver) |})).
Proof.
  intros Hc.
  destruct (Z_lt_ge_dec (driverIndex_of motorIndex) (numDrivers (self p)))
    as [Hlt|Hge].
  - right. pose proof (driverIndex_of_nonneg motorIndex) as Hnn.
    destruct (consistent_lookup (self p) _ Hc (conj (proj1 Hnn) Hlt))
      as (driver & bus_address & Hd & Hba).
    exists driver, bus_address. repeat split; try assumption.
    apply setPWM_forward_block; assumption.
  - left. split; [lia|]. apply setPWM_skip. lia.
Qed.

Lemma setPWM_then motorIndex1 on1 off1 motorIndex2 on2 off2 p p1 :
  setPWM motorIndex1 on1 off1 p = Ok (tt, p1) ->
  run [SetPWM motorIndex1 on1 off1; SetPWM motorIndex2 on2 off2] p =
    setPWM motorIndex2 on2 off2 p1.
Proof.
  intros H1. cbn [run perform]. unfold bind. rewrite H1.
  destruct (setPWM motorIndex2 on2 off2 p1) as [[[] p2]|u]; reflexivity.
Qed.

End Commute.

(** X10: two commands whose indices resolve to different drivers can be
    issued in either order: both orders return and leave the same
    aggregator, every transport with the same transfers; with the debug
    flag off the two resulting programs are equal. *)
Theorem setPWM_different_drivers_commute {h : Header} :
  forall i on1 off1 j on2 off2 p,
    is_uint8 i -> is_uint8 j -> consistent (self p) ->
    i / 16 <> j / 16 ->
    exists p1 p2,
      run [SetPWM i on1 off1; SetPWM j on2 off2] p = Ok (tt, p1) /\
      run [SetPWM j on2 off2; SetPWM i on1 off1] p = Ok (tt, p2) /\
      self p1 = self p2 /\
      PCA9685_DEBUG p1 = PCA9685_DEBUG p2 /\
      (PCA9685_DEBUG p = false -> p1 = p2).
Proof.
  intros i on1 off1 j on2 off2 p Hi Hj Hc Hne.
  destruct (driverIndex_of_uint8 i Hi) as [Hdi Hri].
  destruct (driverIndex_of_uint8 j Hj) as [Hdj Hrj].
  assert (Hnat : Z.to_nat (driverIndex_of i) <> Z.to_nat (driverIndex_of j))
    by (rewrite Hdi, Hdj; lia).
  destruct (setPWM_cases i on1 off1 p Hc)
    as [[Hgi Hsi]|(di & bi & Hli & Hdrvi & Hbai & Hsi)];
  destruct (setPWM_cases j on2 off2 p Hc)
    as [[Hgj Hsj]|(dj & bj & Hlj & Hdrvj & Hbaj & Hsj)].
  - exists p, p. rewrite (setPWM_then _ _ _ _ _ _ _ _ Hsi),
      (setPWM_then _ _ _ _ _ _ _ _ Hsj). auto.
  - eexists _, _. rewrite (setPWM_then _ _ _ _ _ _ _ _ Hsi), Hsj.
    rewrite (setPWM_then _ _ _ _ _ _ _ _ Hsj).
    rewrite setPWM_skip by exact Hgi. auto.
  - eexists _, _. rewrite (setPWM_then _ _ _ _ _ _ _ _ Hsi).
    rewrite setPWM_skip by exact Hgj.
    rewrite (setPWM_then _ _ _ _ _ _ _ _ Hsj), Hsi. auto.
  - eexists _, _. rewrite (setPWM_then _ _ _ _ _ _ _ _ Hsi).
    rewrite (setPWM_forward_block j on2 off2 _ dj bj);
      [|exact Hlj
       |cbn [forwarded self pwmDrivers];
        rewrite list_lookup_insert_ne by exact Hnat; exact Hdrvj
       |exact Hbaj].
    rewrite (setPWM_then _ _ _ _ _ _ _ _ Hsj).
    rewrite (setPWM_forward_block i on1 off1 _ di bi);
      [|exact Hli
       |cbn [forwarded self pwmDrivers];
        rewrite list_lookup_insert_ne by (intros E; apply Hnat; now rewrite E);
        exact Hdrvi
       |exact Hbai].
    split; [reflexivity|]. split; [reflexivity|].
    assert (Hself :
      self (forwarded
              (forwarded p i on1 off1 bi
                 {| PCA9685.i2c := log (block_for i on1 off1) (PCA9685.i2c di) |})
              j on2 off2 bj
              {| PCA9685.i2c := log (block_for j on2 off2) (PCA9685.i2c dj) |}) =
      self (forwarded
              (forwarded p j on2 off2 bj
                 {| PCA9685.i2c := log (block_for j on2 off2) (PCA9685.i2c dj) |})
              i on1 off1 bi
              {| PCA9685.i2c := log (block_for i on1 off1) (PCA9685.i2c di) |})).
    { cbn [forwarded self pwmDrivers busAddressPairs numDrivers DevFrequency].
      f_equal. apply list_insert_insert_ne. congruence. }
    split; [exact Hself|]. split; [reflexivity|].
    intros Hoff. unfold forwarded in *. cbn [self] in Hself |- *.
    cbn [PCA9685_DEBUG cout]. rewrite Hoff, !app_nil_r.
    f_equal.
    cbn [pwmDrivers busAddressPairs numDrivers DevFrequency] in Hself |- *.
    exact Hself.
Qed.

Lemma setPWM_different_drivers_commute_0_17 :
  (is_uint8 0 /\ is_uint8 17 /\ consistent two_chips /\ 0 / 16 <> 17 / 16) /\
  exists p1,
    run (h := datasheet) [SetPWM 0 0 100; SetPWM 17 0 200]
        (start two_chips false) = Ok (tt, p1) /\
    run (h := datasheet) [SetPWM 17 0 200; SetPWM 0 0 100]
        (start two_chips false) = Ok (tt, p1).
Proof.
  assert (Hi : is_uint8 0) by (unfold is_uint8; lia).
  assert (Hj : is_uint8 17) by (unfold is_uint8; lia).
  assert (Hc : consistent (self (start two_chips false)))
    by (split; [reflexivity|vm_compute; discriminate]).
  assert (Hne : 0 / 16 <> 17 / 16) by (vm_compute; discriminate).
  split; [auto|].
  destruct (setPWM_different_drivers_commute (h := datasheet)
              0 0 100 17 0 200 (start two_chips false) Hi Hj Hc Hne)
    as (p1 & p2 & H1 & H2 & _ & _ & Heq).
  exists p1. split; [exact H1|]. rewrite (Heq eq_refl). exact H2.
Defined.

(** ** The prescale byte over the frequencies *)

Lemma prescale_ordered_all :
  uint8_all (fun f1 => uint8_all (prescale_ordered f1)) = true.
Proof. vm_compute. reflexivity. Qed.

(** X11: over the [uint8_t] frequencies from 24 Hz on, the prescale byte
    of [setFreq] never grows with the frequency, and it stays within
    23..253: inside what the byte and the chip's register can hold. *)
Theorem prescale_val_antitone :
  forall f1 f2,
    is_uint8 f1 -> is_uint8 f2 -> 24 <= f1 <= f2 ->
    exists p1 p2,
      PCA9685.prescale_val f1 = Ok p1 /\
      PCA9685.prescale_val f2 = Ok p2 /\
      p2 <= p1 /\ 23 <= p2 /\ p1 <= 253.
Proof.
  intros f1 f2 H1 H2 [Hlo Hle].
  pose proof (uint8_all_spec _ prescale_ordered_all f1 H1) as Hrow.
  pose proof (uint8_all_spec _ Hrow f2 H2) as Hord.
  unfold prescale_ordered in Hord.
  replace (24 <=? f1) with true in Hord by (symmetry; apply Z.leb_le; lia).
  replace (f1 <=? f2) with true in Hord by (symmetry; apply Z.leb_le; lia).
  cbn [andb] in Hord.
  destruct (PCA9685.prescale_val f1) as [p1|]; [|discriminate].
  destruct (PCA9685.prescale_val f2) as [p2|]; [|discriminate].
  apply andb_true_iff in Hord as [Hord H253].
  apply andb_true_iff in Hord as [Hmono H23].
  apply Z.leb_le in Hmono, H23, H253.
  exists p1, p2. auto.
Qed.

Lemma prescale_val_antitone_50_60 :
  (is_uint8 50 /\ is_uint8 60 /\ 24 <= 50 <= 60) /\
  exists p1 p2,
    PCA9685.prescale_val 50 = Ok p1 /\ PCA9685.prescale_val 60 = Ok p2 /\
    p2 <= p1.
Proof.
  assert (H1 : is_uint8 50) by (unfold is_uint8; lia).
  assert (H2 : is_uint8 60) by (unfold is_uint8; lia).
  assert (Hr : 24 <= 50 <= 60) by lia.
  split; [auto|].
  destruct (prescale_val_antitone 50 60 H1 H2 Hr)
    as (p1 & p2 & Hp1 & Hp2 & Hle & _).
  exists p1, p2. auto.
Defined.

(** ** Which commands a constructed aggregator drops *)

(** X12: on an aggregator constructed from [n] pairs, with [numDrivers]
    wide enough to hold [n], a command leaves the program exactly as it
    was if and only if its flat index is at least [16 * n]; below, it
    always changes a transport. *)
Theorem setPWM_dropped_iff_beyond_configured {h : Header} :
  forall pairs frequency o motorIndex on off dbg,
    new pairs frequency = Ok o ->
    Z.of_nat (length pairs) < 2 ^ numDrivers_bits ->
    is_uint8 motorIndex ->
    numDrivers o = Z.of_nat (length pairs) /\
    (setPWM motorIndex on off (start o dbg) = Ok (tt, start o dbg)
     <-> 16 * Z.of_nat (length pairs) <= motorIndex).
Proof.
  intros pairs frequency o motorIndex on off dbg Hnew Hwide Hm.
  destruct (new_configuration pairs frequency o Hnew) as [Hcfg Hc].
  unfold configuration in Hcfg. injection Hcfg as _ _ Hn _.
  unfold wrap in Hn. rewrite Z.mod_small in Hn by lia.
  destruct (driverIndex_of_uint8 motorIndex Hm) as [Hd Hdr].
  split; [exact Hn|]. split.
  - intros Hsame.
    destruct (Z_lt_ge_dec motorIndex (16 * Z.of_nat (length pairs)))
      as [Hlt|Hge]; [exfalso|lia].
    destruct (setPWM_cases motorIndex on off (start o dbg) Hc)
      as [[Hskip _]|(driver & ba & _ & Hdrv & _ & Hfw)].
    + cbn [start self] in Hskip. rewrite Hd, Hn in Hskip.
      assert (motorIndex / 16 < Z.of_nat (length pairs))
        by (apply Z.div_lt_upper_bound; lia).
      lia.
    + rewrite Hfw in Hsame.
      apply (f_equal (fun r => match r with
                               | Ok (_, q) => q
                               | Undefined _ => start o dbg
                               end)) in Hsame.
      apply (f_equal (fun q => pwmDrivers (self q)
                                 !! Z.to_nat (driverIndex_of motorIndex)))
        in Hsame.
      cbn [forwarded self pwmDrivers start] in Hsame, Hdrv.
      rewrite list_lookup_insert_eq in Hsame by (eapply lookup_lt_Some, Hdrv).
      rewrite Hdrv in Hsame. injection Hsame as Hsame.
      apply (f_equal (fun d => length (written (PCA9685.i2c d)))) in Hsame.
      cbn [PCA9685.i2c] in Hsame. rewrite written_log, length_app in Hsame.
      cbn in Hsame. lia.
  - intros Hge. apply setPWM_skip. cbn [start self]. rewrite Hd, Hn.
    apply Z.div_le_lower_bound; lia.
Qed.

Lemma setPWM_dropped_iff_beyond_configured_two_chips :
  (new (h := datasheet) two_pairs 50 = Ok two_chips /\
   Z.of_nat (length two_pairs) < 2 ^ numDrivers_bits (Header := datasheet) /\
   is_uint8 32) /\
  setPWM (h := datasheet) 32 0 2000 (start two_chips true)
    = Ok (tt, start two_chips true).
Proof.
  assert (Hnew : new (h := datasheet) two_pairs 50 = Ok two_chips)
    by (vm_compute; reflexivity).
  assert (Hwide : Z.of_nat (length two_pairs)
                  < 2 ^ numDrivers_bits (Header := datasheet))
    by (vm_compute; reflexivity).
  assert (Hm : is_uint8 32) by (unfold is_uint8; lia).
  split; [auto|].
  apply (proj2 (setPWM_dropped_iff_beyond_configured (h := datasheet)
                  two_pairs 50 two_chips 32 0 2000 true Hnew Hwide Hm)).
  vm_compute. discriminate.
Defined.

(** ** The example program *)

(** X13: the example program, started with the debug flag off and a
    driver count that can hold 6, returns having printed the six
    configured drivers in order, numbered from 1, as its comment
    documents, and one debug line for each of the three commands between
    the two [toggleDebug] calls; motor 17 and motor 21 are channels 1 and
    5 of the second chip, motor 95 is channel 15 of the sixth, each
    receives SERVOMIN then SERVOMAX with on-time 0, and the other four
    chips receive nothing after their construction. *)
Theorem main_behaviour {h : Header} :
  6 < 2 ^ numDrivers_bits ->
  main false =
    Ok {| self :=
            {| busAddressPairs := pcaBusAddressPairs;
               pwmDrivers :=
                 [ at_50_then 1 0x40 [];
                   at_50_then 3 0x41
                     [WriteBlock (SERVO0 + 4 * 1) [0; 0; 110; 0] 4;
                      WriteBlock (SERVO0 + 4 * 1) [0; 0; 0x26; 0x02] 4;
                      WriteBlock (SERVO0 + 4 * 5) [0; 0; 110; 0] 4;
                      WriteBlock (SERVO0 + 4 * 5) [0; 0; 0x26; 0x02] 4];
                   at_50_then 1 0x42 [];
                   at_50_then 1 0x48 [];
                   at_50_then 4 0x55 [];
                   at_50_then 4 0x80
                     [WriteBlock (SERVO0 + 4 * 15) [0; 0; 110; 0] 4;
                      WriteBlock (SERVO0 + 4 * 15) [0; 0; 0x26; 0x02] 4] ];
               numDrivers := 6;
               DevFrequency := 50 |};
          PCA9685_DEBUG := false;
          cout :=
            [ ConfigurationBanner; NumberOfDrivers 6; DeviceFrequency 50;
              BlankLine;
              DriverLine 1 1 0x40; DriverLine 2 3 0x41; DriverLine 3 1 0x42;
              DriverLine 4 1 0x48; DriverLine 5 4 0x55; DriverLine 6 4 0x80;
              BlankLine;
              DebugOutputOn;
              SettingPWM 0 550 17 1 1 0x41 3;
              SettingPWM 0 110 21 1 5 0x41 3;
              SettingPWM 0 550 21 1 5 0x41 3;
              DebugOutputOff ] |}.
Proof.
  intros Hwide. unfold main, new.
  rewrite (emplace_all_run pcaBusAddressPairs 50 121 eq_refl).
  cbn [rbind].
  replace (wrap numDrivers_bits (Z.of_nat (length pcaBusAddressPairs)))
    with 6 by (unfold wrap; symmetry; apply Z.mod_small; cbn; lia).
  vm_compute. reflexivity.
Qed.

Lemma main_behaviour_datasheet :
  6 < 2 ^ numDrivers_bits (Header := datasheet) /\
  exists p,
    main (h := datasheet) false = Ok p /\
    length (cout p) = 16%nat /\
    PCA9685_DEBUG p = false.
Proof.
  assert (Hwide : 6 < 2 ^ numDrivers_bits (Header := datasheet))
    by (vm_compute; reflexivity).
  split; [exact Hwide|].
  eexists. split; [exact (main_behaviour (h := datasheet) Hwide)|].
  split; reflexivity.
Defined.
